(** * Player Landing Backend: a shallow embedding of [main.py] and [schemas.py]

    The development follows the layout of the Python sources:
    - Python values and the few builtins the handlers use ([str.lower],
      [str.join], [int], truth values, [x or y]);
    - documents of the store and the pydantic models of [schemas.py];
    - the document store behind [db] and [create_document];
    - the regular expression [slug_regex];
    - the HTTP handlers of [main.py], as state-passing functions over the
      store, and the notification sender [send_email_background];
    - the theorems about them. *)

From Stdlib Require Import ZArith Ascii String List Bool Lia.
From stdpp Require Import gmap strings list fin_maps pretty.

Local Open Scope string_scope.
Local Open Scope Z_scope.

(* ===================================================================== *)
(** * Python values and builtins *)
(* ===================================================================== *)

(** Exceptions that the modelled code raises or lets through.  All of them
    derive from Python's [Exception]. *)
Inductive exn : Type :=
| HTTPException (status_code : Z) (detail : string)
| TypeError
| KeyError
| ValueError
| ValidationError
| NotImplementedError
| StoreUnavailableError
| OSError
| SMTPException.

(** The outcome of evaluating a Python expression or call. *)
Inductive pyresult (A : Type) : Type :=
| Return (a : A)
| Raise (e : exn).
Arguments Return {A} a.
Arguments Raise {A} e.

(** Values found in a stored document: the JSON-like fragment that the
    models of [schemas.py] serialise to, and the store's object ids. *)
#[warnings="-register-all"]
Inductive value : Type :=
| VNull
| VStr (s : string)
| VInt (z : Z)
| VList (l : list value)
| VDoc (d : list (string * value))
| VObjectId (oid : N).

(** A Python [dict] with string keys.  Insertion order is kept, keys are
    unique in every dict the code builds; lookups take the first entry. *)
Abbreviation document := (list (string * value)).

Module Py.

(** [bool(s)] for a string. *)
Definition truthy_str (s : string) : bool :=
  match s with EmptyString => false | _ => true end.

(** [bool(o)] for an [Optional[str]]. *)
Definition truthy_opt (o : option string) : bool :=
  match o with Some s => truthy_str s | None => false end.

(** [bool(v)] for a stored value. *)
Definition truthy (v : value) : bool :=
  match v with
  | VNull => false
  | VStr s => truthy_str s
  | VInt z => negb (z =? 0)
  | VList l => match l with [] => false | _ => true end
  | VDoc d => match d with [] => false | _ => true end
  | VObjectId _ => true
  end.

(** [o or d] where [o : Optional[str]] and [d : str]. *)
Definition or_str (o : option string) (d : string) : string :=
  match o with
  | Some s => if truthy_str s then s else d
  | None => d
  end.

(** [c.lower()] on one character (ASCII letters). *)
Definition lower_ascii (c : ascii) : ascii :=
  let n := nat_of_ascii c in
  if ((65 <=? n)%nat && (n <=? 90)%nat)%bool then ascii_of_nat (n + 32) else c.

(** [s.lower()]. *)
Fixpoint lower (s : string) : string :=
  match s with
  | EmptyString => EmptyString
  | String c s' => String (lower_ascii c) (lower s')
  end.

(** [sep.join(parts)]. *)
Fixpoint join (sep : string) (parts : list string) : string :=
  match parts with
  | [] => ""
  | [p] => p
  | p :: rest => p ++ sep ++ join sep rest
  end.

(** ** [int(s)] for a string

    Leading and trailing white space is ignored, then comes an optional
    sign and a non-empty run of decimal digits in which single underscores
    may separate digits; a literal of more than 4300 digits is refused (the
    default of [sys.get_int_max_str_digits()]).  Anything else is a
    [ValueError] ([None] here).

    On a string of ASCII characters the white space is the space and the
    characters 9 to 13, and the digits are 0 to 9; the characters 28 to 31
    are no white space for [int].  On a string with a character beyond
    ASCII, [int] reads white space and decimal digits off the Unicode
    database of the interpreter, which is no part of the program: the
    outcome on such a string is [unicode_int], given from outside. *)

Definition is_space (c : ascii) : bool :=
  let n := nat_of_ascii c in
  ((n =? 32)%nat || ((9 <=? n)%nat && (n <=? 13)%nat))%bool.

Definition digit_val (c : ascii) : option Z :=
  let n := nat_of_ascii c in
  if ((48 <=? n)%nat && (n <=? 57)%nat)%bool then Some (Z.of_nat (n - 48)) else None.

Definition is_digit (c : ascii) : bool :=
  match digit_val c with Some _ => true | None => false end.

(** A character of ASCII: a byte below 128. *)
Definition is_ascii (c : ascii) : bool := (nat_of_ascii c <? 128)%nat.

Fixpoint lstrip (s : list ascii) : list ascii :=
  match s with
  | c :: s' => if is_space c then lstrip s' else s
  | [] => []
  end.

Definition strip (s : list ascii) : list ascii :=
  rev (lstrip (rev (lstrip s))).

(** [digits acc after_digit s]: the digits of [s] read into [acc];
    [after_digit] says that the previous character was a digit, which is
    where an underscore or the end of the literal is allowed. *)
Fixpoint digits (acc : Z) (after_digit : bool) (s : list ascii) : option Z :=
  match s with
  | [] => if after_digit then Some acc else None
  | c :: s' =>
      match digit_val c with
      | Some d => digits (10 * acc + d) true s'
      | None =>
          if (Ascii.eqb c "_" && after_digit)%bool then
            match s' with
            | [] => None
            | _ => digits acc false s'
            end
          else None
      end
  end.

(** The limit on the number of digits of a literal. *)
Definition max_str_digits : Z := 4300.

(** [int(s)] on a string of ASCII characters. *)
Definition int_ascii (s : list ascii) : option Z :=
  let literal := strip s in
  if max_str_digits <? Z.of_nat (length (List.filter is_digit literal)) then None
  else
    match literal with
    | "-"%char :: ds => Z.opp <$> digits 0 false ds
    | "+"%char :: ds => digits 0 false ds
    | ds => digits 0 false ds
    end.

Definition int (unicode_int : string -> option Z) (s : string) : option Z :=
  if forallb is_ascii (list_ascii_of_string s) then int_ascii (list_ascii_of_string s)
  else unicode_int s.

End Py.

(* ===================================================================== *)
(** * Documents *)
(* ===================================================================== *)

Module Doc.

(** [k in d] and [d[k]]. *)
Fixpoint get (k : string) (d : document) : option value :=
  match d with
  | [] => None
  | (k', v) :: d' => if String.eqb k' k then Some v else get k d'
  end.

(** [d.get(k)]: [None] when the key is missing. *)
Definition get_default (k : string) (d : document) : value :=
  match get k d with Some v => v | None => VNull end.

(** [d.pop(k, None)], and [{k': v for k', v in d.items() if k' != k}]. *)
Fixpoint pop (k : string) (d : document) : document :=
  match d with
  | [] => []
  | (k', v) :: d' => if String.eqb k' k then pop k d' else (k', v) :: pop k d'
  end.

(** [d[k] = v]: the entry is replaced in place, or appended. *)
Fixpoint set (k : string) (v : value) (d : document) : document :=
  match d with
  | [] => [(k, v)]
  | (k', v') :: d' => if String.eqb k' k then (k, v) :: d' else (k', v') :: set k v d'
  end.

End Doc.

(* ===================================================================== *)
(** * The models of [schemas.py] *)
(* ===================================================================== *)

(** What the handlers use of a pydantic [BaseModel]: the class name, the
    serialisation of an instance to a dict, and the validating constructor
    of the model applied to the entries of a dict, which fails with a [ValidationError] ([None] here). *)
Class BaseModel (A : Type) : Type := {
  cls_name : string;
  model_dump : A -> document;
  model_validate : document -> option A
}.
Arguments cls_name A {_}.

(** Field validators.  A missing key takes the field's default; [None] is
    accepted by an [Optional] field; a value of another type than the
    annotation is rejected (pydantic's conversions between types, such as
    a numeric string for an [int], are not modelled); keys the model does
    not declare are ignored, which is pydantic's default. *)
Module Field.

Definition dump_str (o : option string) : value :=
  match o with Some s => VStr s | None => VNull end.

Definition dump_int (o : option Z) : value :=
  match o with Some z => VInt z | None => VNull end.

Definition dump_list {A} (f : A -> value) (o : option (list A)) : value :=
  match o with Some l => VList (map f l) | None => VNull end.

Definition required_str (k : string) (d : document) : option string :=
  match Doc.get k d with
  | Some (VStr s) => Some s
  | _ => None
  end.

Definition optional_str (k : string) (dflt : option string) (d : document)
  : option (option string) :=
  match Doc.get k d with
  | None => Some dflt
  | Some VNull => Some None
  | Some (VStr s) => Some (Some s)
  | Some _ => None
  end.

Definition optional_int (k : string) (dflt : option Z) (d : document)
  : option (option Z) :=
  match Doc.get k d with
  | None => Some dflt
  | Some VNull => Some None
  | Some (VInt z) => Some (Some z)
  | Some _ => None
  end.

Definition optional_list {A} (elem : value -> option A) (k : string)
    (dflt : option (list A)) (d : document) : option (option (list A)) :=
  match Doc.get k d with
  | None => Some dflt
  | Some VNull => Some None
  | Some (VList l) => Some <$> mapM elem l
  | Some _ => None
  end.

(** An [Optional[EmailStr]] field: a string is passed through the e-mail
    validator, which returns the address it accepts. *)
Definition optional_email (validate_email : string -> option string)
    (k : string) (dflt : option string) (d : document) : option (option string) :=
  match Doc.get k d with
  | None => Some dflt
  | Some VNull => Some None
  | Some (VStr s) => Some <$> validate_email s
  | Some _ => None
  end.

Definition str_elem (v : value) : option string :=
  match v with VStr s => Some s | _ => None end.

Definition model_elem {A} `{BaseModel A} (v : value) : option A :=
  match v with VDoc d => model_validate d | _ => None end.

End Field.

Module LinkItem.
Record t : Type := {
  title : string;
  url : string;
  icon : option string
}.

Definition dump (x : t) : document :=
  [("title", VStr (title x)); ("url", VStr (url x)); ("icon", Field.dump_str (icon x))].

Definition validate (d : document) : option t :=
  title ← Field.required_str "title" d;
  url ← Field.required_str "url" d;
  icon ← Field.optional_str "icon" None d;
  Some {| title := title; url := url; icon := icon |}.
End LinkItem.

#[export] Instance LinkItem_model : BaseModel LinkItem.t :=
  {| cls_name := "LinkItem"; model_dump := LinkItem.dump; model_validate := LinkItem.validate |}.

Module SeasonStats.
Record t : Type := {
  season : string;
  club : option string;
  league : option string;
  games : option Z;
  goals : option Z;
  assists : option Z;
  clean_sheets : option Z;
  minutes : option Z
}.

Definition dump (x : t) : document :=
  [("season", VStr (season x));
   ("club", Field.dump_str (club x));
   ("league", Field.dump_str (league x));
   ("games", Field.dump_int (games x));
   ("goals", Field.dump_int (goals x));
   ("assists", Field.dump_int (assists x));
   ("clean_sheets", Field.dump_int (clean_sheets x));
   ("minutes", Field.dump_int (minutes x))].

Definition validate (d : document) : option t :=
  season ← Field.required_str "season" d;
  club ← Field.optional_str "club" None d;
  league ← Field.optional_str "league" None d;
  games ← Field.optional_int "games" (Some 0) d;
  goals ← Field.optional_int "goals" (Some 0) d;
  assists ← Field.optional_int "assists" (Some 0) d;
  clean_sheets ← Field.optional_int "clean_sheets" (Some 0) d;
  minutes ← Field.optional_int "minutes" (Some 0) d;
  Some {| season := season; club := club; league := league; games := games;
          goals := goals; assists := assists; clean_sheets := clean_sheets;
          minutes := minutes |}.
End SeasonStats.

#[export] Instance SeasonStats_model : BaseModel SeasonStats.t :=
  {| cls_name := "SeasonStats"; model_dump := SeasonStats.dump;
     model_validate := SeasonStats.validate |}.

Module Player.
Record t : Type := {
  slug : string;
  name : string;
  position : string;
  age : option Z;
  country : option string;
  current_club : option string;
  league : option string;
  photo_url : option string;
  highlight_title : option string;
  highlight_url : option string;
  highlight_description : option string;
  height_cm : option Z;
  weight_kg : option Z;
  dominant_foot : option string;
  main_position : option string;
  secondary_positions : option (list string);
  past_clubs : option (list string);
  bio : option string;
  links : option (list LinkItem.t);
  stats : option (list SeasonStats.t);
  contact_email : option string
}.

Definition dump (x : t) : document :=
  [("slug", VStr (slug x));
   ("name", VStr (name x));
   ("position", VStr (position x));
   ("age", Field.dump_int (age x));
   ("country", Field.dump_str (country x));
   ("current_club", Field.dump_str (current_club x));
   ("league", Field.dump_str (league x));
   ("photo_url", Field.dump_str (photo_url x));
   ("highlight_title", Field.dump_str (highlight_title x));
   ("highlight_url", Field.dump_str (highlight_url x));
   ("highlight_description", Field.dump_str (highlight_description x));
   ("height_cm", Field.dump_int (height_cm x));
   ("weight_kg", Field.dump_int (weight_kg x));
   ("dominant_foot", Field.dump_str (dominant_foot x));
   ("main_position", Field.dump_str (main_position x));
   ("secondary_positions", Field.dump_list VStr (secondary_positions x));
   ("past_clubs", Field.dump_list VStr (past_clubs x));
   ("bio", Field.dump_str (bio x));
   ("links", Field.dump_list (fun l => VDoc (model_dump l)) (links x));
   ("stats", Field.dump_list (fun s => VDoc (model_dump s)) (stats x));
   ("contact_email", Field.dump_str (contact_email x))].

Definition validate (validate_email : string -> option string) (d : document)
  : option t :=
  slug ← Field.required_str "slug" d;
  name ← Field.required_str "name" d;
  position ← Field.required_str "position" d;
  age ← Field.optional_int "age" None d;
  country ← Field.optional_str "country" None d;
  current_club ← Field.optional_str "current_club" None d;
  league ← Field.optional_str "league" None d;
  photo_url ← Field.optional_str "photo_url" None d;
  highlight_title ← Field.optional_str "highlight_title" (Some "Best Highlights") d;
  highlight_url ← Field.optional_str "highlight_url" None d;
  highlight_description ← Field.optional_str "highlight_description" None d;
  height_cm ← Field.optional_int "height_cm" None d;
  weight_kg ← Field.optional_int "weight_kg" None d;
  dominant_foot ← Field.optional_str "dominant_foot" None d;
  main_position ← Field.optional_str "main_position" None d;
  secondary_positions ← Field.optional_list Field.str_elem "secondary_positions" (Some []) d;
  past_clubs ← Field.optional_list Field.str_elem "past_clubs" (Some []) d;
  bio ← Field.optional_str "bio" None d;
  links ← Field.optional_list (Field.model_elem (A := LinkItem.t)) "links" (Some []) d;
  stats ← Field.optional_list (Field.model_elem (A := SeasonStats.t)) "stats" (Some []) d;
  contact_email ← Field.optional_email validate_email "contact_email" None d;
  Some {| slug := slug; name := name; position := position; age := age;
          country := country; current_club := current_club; league := league;
          photo_url := photo_url; highlight_title := highlight_title;
          highlight_url := highlight_url;
          highlight_description := highlight_description;
          height_cm := height_cm; weight_kg := weight_kg;
          dominant_foot := dominant_foot; main_position := main_position;
          secondary_positions := secondary_positions; past_clubs := past_clubs;
          bio := bio; links := links; stats := stats;
          contact_email := contact_email |}.

(** An instance that came out of validation: its e-mail address, when it
    has one, is one the validator returns unchanged. *)
Definition validated (validate_email : string -> option string) (x : t) : Prop :=
  match contact_email x with
  | Some e => validate_email e = Some e
  | None => True
  end.
End Player.

Module Testimonial.
Record t : Type := {
  player_slug : string;
  author : option string;
  role : option string;
  quote : string
}.

Definition dump (x : t) : document :=
  [("player_slug", VStr (player_slug x));
   ("author", Field.dump_str (author x));
   ("role", Field.dump_str (role x));
   ("quote", VStr (quote x))].

Definition validate (d : document) : option t :=
  player_slug ← Field.required_str "player_slug" d;
  author ← Field.optional_str "author" None d;
  role ← Field.optional_str "role" None d;
  quote ← Field.required_str "quote" d;
  Some {| player_slug := player_slug; author := author; role := role;
          quote := quote |}.
End Testimonial.

#[export] Instance Testimonial_model : BaseModel Testimonial.t :=
  {| cls_name := "Testimonial"; model_dump := Testimonial.dump;
     model_validate := Testimonial.validate |}.

Module ContactSubmission.
Record t : Type := {
  player_slug : string;
  name : string;
  role : string;
  club_name : option string;
  email : option string;
  whatsapp : option string;
  country : option string;
  message : option string
}.

Definition dump (x : t) : document :=
  [("player_slug", VStr (player_slug x));
   ("name", VStr (name x));
   ("role", VStr (role x));
   ("club_name", Field.dump_str (club_name x));
   ("email", Field.dump_str (email x));
   ("whatsapp", Field.dump_str (whatsapp x));
   ("country", Field.dump_str (country x));
   ("message", Field.dump_str (message x))].

Definition validate (validate_email : string -> option string) (d : document)
  : option t :=
  player_slug ← Field.required_str "player_slug" d;
  name ← Field.required_str "name" d;
  role ← Field.required_str "role" d;
  club_name ← Field.optional_str "club_name" None d;
  email ← Field.optional_email validate_email "email" None d;
  whatsapp ← Field.optional_str "whatsapp" None d;
  country ← Field.optional_str "country" None d;
  message ← Field.optional_str "message" None d;
  Some {| player_slug := player_slug; name := name; role := role;
          club_name := club_name; email := email; whatsapp := whatsapp;
          country := country; message := message |}.
End ContactSubmission.

(* ===================================================================== *)
(** * The document store *)
(* ===================================================================== *)

(** The database behind the handle [db]: named collections of documents in
    insertion order, and the counter the object ids are drawn from. *)
Record database : Type := {
  collections : gmap string (list document);
  next_oid : N
}.

Module Mongo.

Definition empty : database := {| collections := ∅; next_oid := 0%N |}.

(** [db[name]]: a collection that was never written to is empty. *)
Definition collection (name : string) (d : database) : list document :=
  default [] (collections d !! name).

(** The query [{field: s}] on one document: the field holds the string
    [s], or an array with [s] among its elements. *)
Definition matches (field s : string) (doc : document) : bool :=
  match Doc.get field doc with
  | Some (VStr s') => String.eqb s' s
  | Some (VList l) =>
      existsb (fun v => match v with VStr s' => String.eqb s' s | _ => false end) l
  | _ => false
  end.

(** [db[name].find({field: s})], in the order of the collection. *)
Definition find (name field s : string) (d : database) : list document :=
  List.filter (matches field s) (collection name d).

(** [cursor.limit(n)] for a positive [n]. *)
Definition limit (n : nat) (docs : list document) : list document := take n docs.

(** [db[name].find_one({field: s})]. *)
Definition find_one (name field s : string) (d : database) : option document :=
  head (find name field s d).

(** [db[name].insert_one(doc)]: the document is stored under a fresh
    object id, which is returned. *)
Definition insert_one (name : string) (doc : document) (d : database) : N * database :=
  let oid := next_oid d in
  (oid,
   {| collections :=
        <[name := (collection name d ++ [("_id", VObjectId oid) :: doc])%list]>
          (collections d);
      next_oid := N.succ oid |}).

Definition hex_digit (n : N) : ascii :=
  nth (N.to_nat n)
    ["0"; "1"; "2"; "3"; "4"; "5"; "6"; "7"; "8"; "9"; "a"; "b"; "c"; "d"; "e"; "f"]%char
    "0"%char.

Fixpoint hex_fixed (width : nat) (n : N) : string :=
  match width with
  | O => ""
  | S w => hex_fixed w (n / 16)%N ++ String (hex_digit (n mod 16)%N) ""
  end.

(** [str(oid)]: twenty-four hexadecimal digits. *)
Definition oid_str (oid : N) : string := hex_fixed 24 oid.

End Mongo.

(* ===================================================================== *)
(** * Handlers as state-passing computations over [db] *)
(* ===================================================================== *)

(** The module-level handle [db] is [None] or an open database; it comes
    from the module [database], which is not among the sources, and the
    handlers use it as a pymongo database.  A handler maps the state of the
    handle to its outcome and the state afterwards; what was written before
    an exception stays written. *)
Definition M (A : Type) : Type := option database -> pyresult A * option database.

Definition ret {A} (a : A) : M A := fun db => (Return a, db).

Definition raise {A} (e : exn) : M A := fun db => (Raise e, db).

Definition bind {A B} (m : M A) (k : A -> M B) : M B :=
  fun db =>
    match m db with
    | (Return a, db') => k a db'
    | (Raise e, db') => (Raise e, db')
    end.

Notation "'let*' x ':=' m 'in' k" := (bind m (fun x => k))
  (at level 10, x name, m at level 100, k at level 200).

(** Lifting a pure outcome. *)
Definition lift {A} (r : pyresult A) : M A := fun db => (r, db).

(** [db[name].find({field: s})] read to the end.  Subscripting [None] is a
    [TypeError]. *)
Definition db_find (name field s : string) : M (list document) :=
  fun db =>
    match db with
    | Some d => (Return (Mongo.find name field s d), db)
    | None => (Raise TypeError, db)
    end.

(** [db[name].find_one({field: s})]. *)
Definition db_find_one (name field s : string) : M (option document) :=
  fun db =>
    match db with
    | Some d => (Return (Mongo.find_one name field s d), db)
    | None => (Raise TypeError, db)
    end.

(** Modelled from the spec: [create_document] of the module [database],
    which is not among the sources.  The spec (4.1) gives it as: serialise
    the validated entity to a document, insert it into the named collection
    (one insert), return the generated identifier; an unavailable store
    propagates an error to the caller. *)
Definition create_document {A} `{BaseModel A} (name : string) (data : A) : M string :=
  fun db =>
    match db with
    | Some d =>
        let '(oid, d') := Mongo.insert_one name (model_dump data) d in
        (Return (Mongo.oid_str oid), Some d')
    | None => (Raise StoreUnavailableError, db)
    end.

(** [collection_name(model_cls)]: the lower-cased class name. *)
Definition collection_name (A : Type) `{BaseModel A} : string :=
  Py.lower (cls_name A).

(* ===================================================================== *)
(** * [slug_regex] *)
(* ===================================================================== *)

Module Re.

(** The fragment of Python's regular expressions that the pattern uses. *)
Inductive re : Type :=
| Empty                                  (* matches nothing *)
| Eps                                    (* the empty string *)
| Chr (c : ascii)                        (* a literal character *)
| Class (ranges : list (ascii * ascii))  (* [a-b...] *)
| Cat (r1 r2 : re)
| Alt (r1 r2 : re)
| Star (r : re).

(** [r+]. *)
Definition Plus (r : re) : re := Cat r (Star r).

Definition in_range (c : ascii) (rg : ascii * ascii) : bool :=
  ((nat_of_ascii (fst rg) <=? nat_of_ascii c)%nat
   && (nat_of_ascii c <=? nat_of_ascii (snd rg))%nat)%bool.

Definition in_class (ranges : list (ascii * ascii)) (c : ascii) : bool :=
  existsb (in_range c) ranges.

Fixpoint nullable (r : re) : bool :=
  match r with
  | Empty => false
  | Eps => true
  | Chr _ => false
  | Class _ => false
  | Cat r1 r2 => nullable r1 && nullable r2
  | Alt r1 r2 => nullable r1 || nullable r2
  | Star _ => true
  end.

(** The derivative of [r] by the character [c]. *)
Fixpoint deriv (c : ascii) (r : re) : re :=
  match r with
  | Empty => Empty
  | Eps => Empty
  | Chr c' => if Ascii.eqb c' c then Eps else Empty
  | Class ranges => if in_class ranges c then Eps else Empty
  | Cat r1 r2 =>
      if nullable r1 then Alt (Cat (deriv c r1) r2) (deriv c r2)
      else Cat (deriv c r1) r2
  | Alt r1 r2 => Alt (deriv c r1) (deriv c r2)
  | Star r' => Cat (deriv c r') (Star r')
  end.

(** [r] matches all of [s]. *)
Fixpoint accepts (r : re) (s : list ascii) : bool :=
  match s with
  | [] => nullable r
  | c :: s' => accepts (deriv c r) s'
  end.

(** [re.compile("^r$").match(s)] as a truth value.  [match] anchors at the
    start, so [^] adds nothing; without the MULTILINE flag [$] holds at
    the end of the string and also just before a newline that is the last
    character of the string. *)
Definition match_dollar (r : re) (s : string) : bool :=
  let cs := list_ascii_of_string s in
  accepts r cs
  || match rev cs with
     | "010"%char :: before => accepts r (rev before)
     | _ => false
     end.

End Re.

(** [slug_regex = re.compile(r"^[a-z0-9]+(?:-[a-z0-9]+)*$")], the pattern
    between the anchors. *)
Definition slug_regex : Re.re :=
  let alnum := Re.Class [("a", "z"); ("0", "9")]%char in
  Re.Cat (Re.Plus alnum) (Re.Star (Re.Cat (Re.Chr "-") (Re.Plus alnum))).

(** [slug_regex.match(s)], as a truth value. *)
Definition slug_regex_match (s : string) : bool := Re.match_dollar slug_regex s.

(** ** The slug format in the words of the specification

    Lower-case alphanumeric segments joined by single dashes: splitting the
    slug at its dashes leaves segments that are all non-empty and made of
    lower-case letters and digits. *)

Definition is_lower_alnum (c : ascii) : bool :=
  let n := nat_of_ascii c in
  (((97 <=? n)%nat && (n <=? 122)%nat) || ((48 <=? n)%nat && (n <=? 57)%nat))%bool.

(** [s.split(sep)] on characters. *)
Fixpoint split_on (sep : ascii) (s : list ascii) : list (list ascii) :=
  match s with
  | [] => [[]]
  | c :: s' =>
      if Ascii.eqb c sep then [] :: split_on sep s'
      else
        match split_on sep s' with
        | seg :: segs => (c :: seg) :: segs
        | [] => [[c]]
        end
  end.

Definition segment_ok (seg : list ascii) : bool :=
  match seg with
  | [] => false
  | _ => forallb is_lower_alnum seg
  end.

Definition slug_wellformed (s : string) : bool :=
  forallb segment_ok (split_on "-" (list_ascii_of_string s)).

(** The language of a regular expression, to which [Re.accepts] is
    compared. *)
Inductive lang : Re.re -> list ascii -> Prop :=
| lang_eps : lang Re.Eps []
| lang_chr c : lang (Re.Chr c) [c]
| lang_class ranges c : Re.in_class ranges c = true -> lang (Re.Class ranges) [c]
| lang_cat r1 r2 s1 s2 : lang r1 s1 -> lang r2 s2 -> lang (Re.Cat r1 r2) (s1 ++ s2)
| lang_alt_l r1 r2 s : lang r1 s -> lang (Re.Alt r1 r2) s
| lang_alt_r r1 r2 s : lang r2 s -> lang (Re.Alt r1 r2) s
| lang_star_nil r : lang (Re.Star r) []
| lang_star_app r s1 s2 : lang r s1 -> lang (Re.Star r) s2 -> lang (Re.Star r) (s1 ++ s2).

(** The two parts of [slug_regex]. *)
Definition alnum : Re.re := Re.Class [("a", "z"); ("0", "9")]%char.
Definition dash_segment : Re.re := Re.Cat (Re.Chr "-") (Re.Plus alnum).

(** [sep.join(segs)] for the dash, on characters. *)
Definition join_dash (segs : list (list ascii)) : list ascii :=
  match segs with
  | [] => []
  | seg :: rest => (seg ++ flat_map (cons "-"%char) rest)%list
  end.


(* ===================================================================== *)
(** * The notification sender *)
(* ===================================================================== *)

(** The newline character, as [\n] in a Python literal. *)
Definition nl : string := String "010"%char "".

(** The process environment read by [os.getenv]. *)
Abbreviation environ := (gmap string string).

(** [os.getenv(k)] and [os.getenv(k, dflt)]. *)
Definition getenv (env : environ) (k : string) : option string := env !! k.
Definition getenv_default (env : environ) (k dflt : string) : string :=
  default dflt (env !! k).

(** The message built by [MIMEText(content, "plain", "utf-8")] and the
    three header assignments. *)
Record MIMEText : Type := {
  payload : string;
  subtype : string;
  charset : string;
  Subject : string;
  From : string;
  To : string
}.

(** What the sender does on the network, in order.  Each event is an
    attempt; whether it succeeds is up to the network. *)
Inductive smtp_event : Type :=
| Connect (host : string) (port : Z)
| StartTLS
| Login (user password : string)
| SendMail (from_addr : string) (to_addrs : list string) (msg : MIMEText)
| Quit.

(** What lies outside [main.py] when the sender runs.  The mail host and
    the network, as seen by [smtplib]: for each step, the exception it
    ends in, if any.  The [email] package: the exception that
    [MIMEText(content, "plain", "utf-8")] ends in, if any (a
    [UnicodeEncodeError] on content that UTF-8 cannot encode), and the one
    that [msg.as_string()] ends in, if any (a [HeaderWriteError] on a
    header with a line break, a [UnicodeEncodeError] on a header that
    cannot be encoded).  And [int] on a string beyond ASCII (see
    [Py.int]). *)
Record smtp_net : Type := {
  connect : string -> Z -> option exn;
  starttls : option exn;
  login : string -> string -> option exn;
  sendmail : string -> list string -> MIMEText -> option exn;
  mime_text : string -> option exn;
  as_string : MIMEText -> option exn;
  unicode_int : string -> option Z
}.

(** The body of the [with] statement: [starttls], [login], and the call
    of [sendmail], whose last argument [msg.as_string()] is evaluated
    before the call is made. *)
Definition smtp_body (net : smtp_net) (smtp_user smtp_pass smtp_from to_email : string)
    (msg : MIMEText) : pyresult unit * list smtp_event :=
  match starttls net with
  | Some e => (Raise e, [StartTLS])
  | None =>
      match login net smtp_user smtp_pass with
      | Some e => (Raise e, [StartTLS; Login smtp_user smtp_pass])
      | None =>
          match as_string net msg with
          | Some e => (Raise e, [StartTLS; Login smtp_user smtp_pass])
          | None =>
              let evs := [StartTLS; Login smtp_user smtp_pass;
                          SendMail smtp_from [to_email] msg] in
              match sendmail net smtp_from [to_email] msg with
              | Some e => (Raise e, evs)
              | None => (Return tt, evs)
              end
          end
      end
  end.

(** [with smtplib.SMTP(host, port) as server: ...]: the constructor
    connects; leaving the block, also by an exception, sends QUIT. *)
Definition smtp_session (net : smtp_net) (smtp_host : string) (smtp_port : Z)
    (smtp_user smtp_pass smtp_from to_email : string) (msg : MIMEText)
    : pyresult unit * list smtp_event :=
  match connect net smtp_host smtp_port with
  | Some e => (Raise e, [Connect smtp_host smtp_port])
  | None =>
      let '(r, evs) := smtp_body net smtp_user smtp_pass smtp_from to_email msg in
      (r, (Connect smtp_host smtp_port :: evs ++ [Quit])%list)
  end.

(** [try: ... except Exception: pass]. *)
Definition swallow (r : pyresult unit * list smtp_event) : pyresult unit * list smtp_event :=
  match r with
  | (Return u, evs) => (Return u, evs)
  | (Raise _, evs) => (Return tt, evs)
  end.

(** [send_email_background(to_email, subject, content)]: its outcome and
    what it did on the network.  The conversion of the port and the
    building of the message stand outside the [try]. *)
Definition send_email_background (env : environ) (net : smtp_net)
    (to_email subject content : string) : pyresult unit * list smtp_event :=
  let smtp_host := getenv env "SMTP_HOST" in
  match Py.int (unicode_int net) (getenv_default env "SMTP_PORT" "587") with
  | None => (Raise ValueError, [])
  | Some smtp_port =>
      let smtp_user := getenv env "SMTP_USER" in
      let smtp_pass := getenv env "SMTP_PASS" in
      let smtp_from := getenv_default env "SMTP_FROM" (Py.or_str smtp_user to_email) in
      if negb (Py.truthy_opt smtp_host && Py.truthy_opt smtp_user && Py.truthy_opt smtp_pass) then
        (* SMTP not configured; skip sending. *)
        (Return tt, [])
      else
        match smtp_host, smtp_user, smtp_pass with
        | Some host, Some user, Some pass =>
            match mime_text net content with
            | Some e => (Raise e, [])
            | None =>
                let msg := {| payload := content; subtype := "plain"; charset := "utf-8";
                              Subject := subject; From := smtp_from; To := to_email |} in
                swallow (smtp_session net host smtp_port user pass smtp_from to_email msg)
            end
        | _, _, _ => (Return tt, [])  (* not reached: the three are truthy *)
        end
  end.

(* ===================================================================== *)
(** * The handlers of [main.py] *)
(* ===================================================================== *)

(** A task queued on a [BackgroundTasks] object.  The only function ever
    queued is [send_email_background]; the task keeps its arguments as the
    handler passed them. *)
Record task : Type := Task {
  task_to_email : value;
  task_subject : string;
  task_content : string
}.

(** [background_tasks.add_task(send_email_background, to, subject, content)]. *)
Definition add_task (background_tasks : list task) (t : task) : list task :=
  (background_tasks ++ [t])%list.

(** [Model(...)] on the entries of a dict: a [ValidationError] when the
    fields do not validate. *)
Definition construct {A} `{BaseModel A} (d : document) : pyresult A :=
  match model_validate d with
  | Some a => Return a
  | None => Raise ValidationError
  end.

(** [bool(x)] for a list. *)
Definition truthy_list {A} (l : list A) : bool :=
  match l with [] => false | _ => true end.

(** The loop of [list_testimonials]: every document loses its ["_id"] and
    is turned into a [Testimonial], appended to [res]. *)
Fixpoint testimonials_loop (docs : list document) (res : list Testimonial.t)
  : pyresult (list Testimonial.t) :=
  match docs with
  | [] => Return res
  | d :: docs' =>
      let d := Doc.pop "_id" d in
      match construct d with
      | Return t => testimonials_loop docs' (res ++ [t])%list
      | Raise e => Raise e
      end
  end.

Section App.

(** The e-mail validator behind pydantic's [EmailStr]: the address it
    accepts, if any. *)
Variable validate_email : string -> option string.

(** The truth value of an open database handle, [bool(db)] for [db] not
    [None]; it is the driver's to define. *)
Variable Database_bool : pyresult bool.

(** [str(v)] for a list or a dict among the stored values. *)
Variable repr_compound : value -> string.

#[local] Instance Player_model : BaseModel Player.t :=
  {| cls_name := "Player"; model_dump := Player.dump;
     model_validate := Player.validate validate_email |}.

#[local] Instance ContactSubmission_model : BaseModel ContactSubmission.t :=
  {| cls_name := "ContactSubmission"; model_dump := ContactSubmission.dump;
     model_validate := ContactSubmission.validate validate_email |}.

(** [str(v)], as an f-string formats a stored value. *)
Definition py_str (v : value) : string :=
  match v with
  | VNull => "None"
  | VStr s => s
  | VInt z => pretty z
  | VObjectId oid => Mongo.oid_str oid
  | VList _ | VDoc _ => repr_compound v
  end.

(** The test [if db] of a conditional expression. *)
Definition db_bool : M bool :=
  fun db =>
    match db with
    | None => (Return false, db)
    | Some _ => (Database_bool, db)
    end.

(** [created["_id"] = str(created["_id"])]. *)
Definition stringify_id (created : option document) : pyresult document :=
  match created with
  | None => Raise TypeError
  | Some d =>
      match Doc.get "_id" d with
      | Some v => Return (Doc.set "_id" (VStr (py_str v)) d)
      | None => Raise KeyError
      end
  end.

(** [POST /api/players]. *)
Definition create_player (player : Player.t) : M Player.t :=
  if negb (slug_regex_match (Player.slug player)) then
    raise (HTTPException 400 "Invalid slug. Use lowercase letters, numbers and dashes.")
  else
    (* Ensure slug unique *)
    let* existing :=
      (let* open := db_bool in
       if open then
         let* docs := db_find (collection_name Player.t) "slug" (Player.slug player) in
         ret (Mongo.limit 1 docs)
       else ret []) in
    if truthy_list existing then
      raise (HTTPException 409 "Slug already exists")
    else
      let* _id := create_document (collection_name Player.t) player in
      (* the conditional expression on the constant False *)
      let created : option document := None in
      (* Fetch freshly created document *)
      let* created := db_find_one (collection_name Player.t) "slug" (Player.slug player) in
      let* created := lift (stringify_id created) in
      lift (construct (Doc.pop "_id" created)).

(** [GET /api/players/{slug}].  The test [not doc] holds for [None] and
    for an empty dict. *)
Definition get_player (slug : string) : M Player.t :=
  let* doc := db_find_one (collection_name Player.t) "slug" slug in
  match doc with
  | None => raise (HTTPException 404 "Player not found")
  | Some doc =>
      if negb (Py.truthy (VDoc doc)) then
        raise (HTTPException 404 "Player not found")
      else
        lift (construct (Doc.pop "_id" doc))
  end.

(** [GET /api/players/{slug}/testimonials]. *)
Definition list_testimonials (slug : string) : M (list Testimonial.t) :=
  let* docs := db_find (collection_name Testimonial.t) "player_slug" slug in
  lift (testimonials_loop docs []).

(** [POST /api/players/{slug}/testimonials]. *)
Definition add_testimonial (slug : string) (testimonial : Testimonial.t)
  : M Testimonial.t :=
  if negb (String.eqb (Testimonial.player_slug testimonial) slug) then
    raise (HTTPException 400 "player_slug mismatch")
  else
    let* _id := create_document (collection_name Testimonial.t) testimonial in
    ret testimonial.

(** The lines of the notification, joined by newlines.  [now] is
    [datetime.utcnow().isoformat()]. *)
Definition contact_content (payload : ContactSubmission.t) (now : string) : string :=
  let lines := [
    "Name: " ++ ContactSubmission.name payload;
    "Role: " ++ ContactSubmission.role payload;
    "Club: " ++ Py.or_str (ContactSubmission.club_name payload) "-";
    "Email: " ++ Py.or_str (ContactSubmission.email payload) "-";
    "WhatsApp: " ++ Py.or_str (ContactSubmission.whatsapp payload) "-";
    "Country: " ++ Py.or_str (ContactSubmission.country payload) "-";
    "";
    "Message:" ++ nl ++ Py.or_str (ContactSubmission.message payload) "-";
    "";
    "Submitted at: " ++ now ++ " UTC"
  ] in
  Py.join nl lines.

(** [POST /api/players/{slug}/contact].  The handler is given the
    request's [BackgroundTasks] object and returns it with the response
    body; [now] is what the clock reads when the message is composed. *)
Definition submit_contact (slug : string) (payload : ContactSubmission.t)
    (background_tasks : list task) (now : string) : M (document * list task) :=
  if negb (String.eqb (ContactSubmission.player_slug payload) slug) then
    raise (HTTPException 400 "player_slug mismatch")
  else
    (* Store submission *)
    let* _id := create_document (collection_name ContactSubmission.t) payload in
    (* Lookup player email *)
    let* player := db_find_one (collection_name Player.t) "slug" slug in
    let background_tasks :=
      match player with
      | Some p =>
          if Py.truthy (VDoc p) && Py.truthy (Doc.get_default "contact_email" p) then
            let subject :=
              "New Contact/Trial Request for " ++ py_str (Doc.get_default "name" p) in
            let content := contact_content payload now in
            add_task background_tasks
              (Task (Doc.get_default "contact_email" p) subject content)
          else background_tasks
      | None => background_tasks
      end in
    ret ([("status", VStr "ok")], background_tasks).

(** ** The request cycle around [submit_contact]

    What the framework does with the handler: it calls it with a fresh
    [BackgroundTasks] object, sends the response, and only then runs the
    queued tasks, in order, stopping at a task that raises. *)

Inductive event : Type :=
| Responded (status : Z) (body : value)
| Network (e : smtp_event)
| TaskRaised (e : exn)
| TaskOutsideSignature (t : task).

(** Running the queue.  A task whose recipient is not a string is a call
    outside the signature of [send_email_background]; the run records it
    and follows it no further. *)
Fixpoint run_tasks (env : environ) (net : smtp_net) (tasks : list task) : list event :=
  match tasks with
  | [] => []
  | t :: rest =>
      match task_to_email t with
      | VStr to_email =>
          let '(r, evs) :=
            send_email_background env net to_email (task_subject t) (task_content t) in
          (map Network evs ++
           match r with
           | Return _ => run_tasks env net rest
           | Raise e => [TaskRaised e]
           end)%list
      | _ => [TaskOutsideSignature t]
      end
  end.

(** The response to a request whose handler raised. *)
Definition error_response (e : exn) : event :=
  match e with
  | HTTPException status_code detail => Responded status_code (VDoc [("detail", VStr detail)])
  | _ => Responded 500 (VStr "Internal Server Error")
  end.

Definition serve_submit_contact (env : environ) (net : smtp_net) (slug : string)
    (payload : ContactSubmission.t) (now : string) (db : option database)
  : list event * option database :=
  match submit_contact slug payload [] now db with
  | (Return (body, background_tasks), db') =>
      (Responded 200 (VDoc body) :: run_tasks env net background_tasks, db')
  | (Raise e, db') => ([error_response e], db')
  end.

(** [n] calls of [get_player] in a row: the responses and the final state. *)
Fixpoint get_player_times (n : nat) (slug : string) (db : option database)
  : list (pyresult Player.t) * option database :=
  match n with
  | O => ([], db)
  | S n' =>
      let '(r, db') := get_player slug db in
      let '(rs, db'') := get_player_times n' slug db' in
      (r :: rs, db'')
  end.

(** ** Sequences of requests

    The requests of the API that reach the store, the state of the handle
    after one of them, and after a list of them handled one after the
    other. *)

Inductive request : Type :=
| PostPlayer (player : Player.t)
| GetPlayer (slug : string)
| GetTestimonials (slug : string)
| PostTestimonial (slug : string) (testimonial : Testimonial.t)
| PostContact (slug : string) (payload : ContactSubmission.t) (now : string).

Definition after (req : request) (db : option database) : option database :=
  match req with
  | PostPlayer player => snd (create_player player db)
  | GetPlayer slug => snd (get_player slug db)
  | GetTestimonials slug => snd (list_testimonials slug db)
  | PostTestimonial slug testimonial => snd (add_testimonial slug testimonial db)
  | PostContact slug payload now => snd (submit_contact slug payload [] now db)
  end.

Definition after_all (reqs : list request) (db : option database) : option database :=
  fold_left (fun db req => after req db) reqs db.

End App.

(* ===================================================================== *)
(** * The endpoints [root] and [test_database] *)
(* ===================================================================== *)

(** [GET /]. *)
Definition root : document := [("message", VStr "Player Landing Backend running")].

(** A byte that continues a character in the UTF-8 form of a [str]. *)
Definition is_continuation (c : ascii) : bool :=
  let n := nat_of_ascii c in ((128 <=? n)%nat && (n <? 192)%nat)%bool.

(** [s[:n]]: the first [n] characters of [s]. *)
Fixpoint take_chars (n : nat) (s : string) : string :=
  match s with
  | EmptyString => EmptyString
  | String c s' =>
      if is_continuation c then String c (take_chars n s')
      else
        match n with
        | O => EmptyString
        | S n' => String c (take_chars n' s')
        end
  end.

(** [len(s)]: the number of characters of [s]. *)
Fixpoint len_chars (s : string) : nat :=
  match s with
  | EmptyString => O
  | String c s' => if is_continuation c then len_chars s' else S (len_chars s')
  end.

(** ["✅ Set" if os.getenv(k) else "❌ Not Set"]. *)
Definition set_flag (env : environ) (k : string) : value :=
  VStr (if Py.truthy_opt (getenv env k) then "✅ Set" else "❌ Not Set").

Section Status.

(** [db.list_collection_names()] on an open database: the names, or the
    text [str(e)] of the exception it raised. *)
Variable list_collection_names : database -> list string + string.

(** [GET /test].  The outer [except] is left out: nothing in the outer
    [try] raises outside the inner one. *)
Definition test_database (env : environ) (db : option database) : document :=
  let response :=
    [("backend", VStr "✅ Running");
     ("database", VStr "❌ Not Available");
     ("database_url", VNull);
     ("database_name", VNull);
     ("connection_status", VStr "Not Connected");
     ("collections", VList [])] in
  match db with
  | Some d =>
      let response := Doc.set "database" (VStr "✅ Available") response in
      let response := Doc.set "database_url" (set_flag env "DATABASE_URL") response in
      let response := Doc.set "database_name" (set_flag env "DATABASE_NAME") response in
      match list_collection_names d with
      | inl collections =>
          let response :=
            Doc.set "collections" (VList (map VStr (take 10 collections))) response in
          let response := Doc.set "database" (VStr "✅ Connected & Working") response in
          Doc.set "connection_status" (VStr "Connected") response
      | inr e =>
          Doc.set "database" (VStr ("⚠️  Connected but Error: " ++ take_chars 80 e)) response
      end
  | None => Doc.set "database" (VStr "⚠️  Available but not initialized") response
  end.

End Status.

(* ===================================================================== *)
(** * Invariants and sample data *)
(* ===================================================================== *)

(** ** An invariant of the store

    Every document of the testimonial collection validates as a
    [Testimonial] once its ["_id"] is removed.  It holds of the empty store
    and every handler keeps it. *)
Definition testimonials_valid (d : database) : Prop :=
  Forall (fun doc => is_Some (Testimonial.validate (Doc.pop "_id" doc)))
         (Mongo.collection "testimonial" d).

(** A stored testimonial document as [list_testimonials] reads it. *)
Abbreviation read_testimonial :=
  (fun doc : document => Testimonial.validate (Doc.pop "_id" doc)).

(** A contact payload that came out of validation: its e-mail address,
    when it has one, is one the validator returns unchanged. *)
Definition contact_validated (validate_email : string -> option string)
    (x : ContactSubmission.t) : Prop :=
  match ContactSubmission.email x with
  | Some e => validate_email e = Some e
  | None => True
  end.

(** ** The effect of one request

    What a request does to an open store: nothing, or one insert; a
    document inserted into the testimonial collection is the serialisation
    of a [Testimonial]. *)
Inductive effect (d : database) : option database -> Prop :=
| effect_none : effect d (Some d)
| effect_insert name doc :
    (name = "testimonial" -> exists t, doc = Testimonial.dump t) ->
    effect d (Some (snd (Mongo.insert_one name doc d))).

(** ** Sample data

    The profile and the contact request of the end-to-end scenario of the
    specification, and further inputs at which the theorems are applied. *)

Definition john_doe : Player.t :=
  {| Player.slug := "john-doe"; Player.name := "John Doe"; Player.position := "Forward";
     Player.age := None; Player.country := None; Player.current_club := None;
     Player.league := None; Player.photo_url := None;
     Player.highlight_title := Some "Best Highlights"; Player.highlight_url := None;
     Player.highlight_description := None; Player.height_cm := None;
     Player.weight_kg := None; Player.dominant_foot := None;
     Player.main_position := None; Player.secondary_positions := Some [];
     Player.past_clubs := Some []; Player.bio := None; Player.links := Some [];
     Player.stats := Some []; Player.contact_email := Some "coach@example.com" |}.

Definition scout_a : ContactSubmission.t :=
  {| ContactSubmission.player_slug := "john-doe"; ContactSubmission.name := "Scout A";
     ContactSubmission.role := "scout"; ContactSubmission.club_name := None;
     ContactSubmission.email := None; ContactSubmission.whatsapp := None;
     ContactSubmission.country := None; ContactSubmission.message := Some "Interested" |}.

Definition praise : Testimonial.t :=
  {| Testimonial.player_slug := "john-doe"; Testimonial.author := Some "Coach B";
     Testimonial.role := None; Testimonial.quote := "A tireless forward." |}.

(** A second profile, without a contact e-mail. *)
Definition jane_roe : Player.t :=
  {| Player.slug := "jane-roe"; Player.name := "Jane Roe"; Player.position := "Keeper";
     Player.age := Some 24; Player.country := Some "NL"; Player.current_club := None;
     Player.league := None; Player.photo_url := None;
     Player.highlight_title := Some "Best Highlights"; Player.highlight_url := None;
     Player.highlight_description := None; Player.height_cm := Some 181;
     Player.weight_kg := None; Player.dominant_foot := None;
     Player.main_position := None; Player.secondary_positions := Some ["Sweeper"];
     Player.past_clubs := Some []; Player.bio := None;
     Player.links := Some [{| LinkItem.title := "Reel"; LinkItem.url := "https://example.com/r";
                              LinkItem.icon := None |}];
     Player.stats := Some []; Player.contact_email := None |}.

(** Requests handled one after the other in the examples. *)
Definition sample_requests : list request :=
  [PostPlayer jane_roe; PostTestimonial "john-doe" praise;
   PostContact "john-doe" scout_a "2024-05-01T12:00:00"; GetPlayer "jane-roe";
   PostPlayer john_doe; GetTestimonials "john-doe"].

(** A profile whose slug is a well-formed slug followed by a newline. *)
Definition newline_player : Player.t :=
  {| Player.slug := "abc" ++ nl; Player.name := "A B"; Player.position := "Keeper";
     Player.age := None; Player.country := None; Player.current_club := None;
     Player.league := None; Player.photo_url := None;
     Player.highlight_title := Some "Best Highlights"; Player.highlight_url := None;
     Player.highlight_description := None; Player.height_cm := None;
     Player.weight_kg := None; Player.dominant_foot := None;
     Player.main_position := None; Player.secondary_positions := Some [];
     Player.past_clubs := Some []; Player.bio := None; Player.links := Some [];
     Player.stats := Some []; Player.contact_email := None |}.

(** An e-mail validator that accepts every address as it is, a driver
    whose open handle is true, and a [str] for lists and dicts. *)
Definition accept_any : string -> option string := Some.
Definition handle_true : pyresult bool := Return true.

(** A driver whose open handle refuses the truth test, as the [Database]
    of pymongo 4 does: its [__bool__] raises [NotImplementedError] and
    asks for a comparison with [None] instead. *)
Definition handle_raises : pyresult bool := Raise NotImplementedError.
Definition no_repr : value -> string := fun _ => "".

(** The store after [john_doe] was created in the empty store. *)
Definition store_with_john : database :=
  snd (Mongo.insert_one "player" (Player.dump john_doe) Mongo.empty).

(** The store after [praise] was added to the empty store. *)
Definition store_with_praise : database :=
  snd (Mongo.insert_one "testimonial" (Testimonial.dump praise) Mongo.empty).

(** A full mail configuration whose port is not a number. *)
Definition env_bad_port : environ :=
  <["SMTP_HOST" := "smtp.example.com"]> (<["SMTP_PORT" := "smtp"]>
   (<["SMTP_USER" := "mailer"]> (<["SMTP_PASS" := "secret"]> ∅))).

(** A full mail configuration with the submission port. *)
Definition env_configured : environ :=
  <["SMTP_HOST" := "smtp.example.com"]> (<["SMTP_PORT" := "587"]>
   (<["SMTP_USER" := "mailer"]> (<["SMTP_PASS" := "secret"]> ∅))).

(** No mail configuration but a port variable that is set and left blank. *)
Definition env_blank_port : environ := <["SMTP_PORT" := ""]> ∅.

(** A network on which every step succeeds, with an [email] package that
    builds and renders every message. *)
Definition net_ok : smtp_net :=
  {| connect := fun _ _ => None; starttls := None; login := fun _ _ => None;
     sendmail := fun _ _ _ => None;
     mime_text := fun _ => None; as_string := fun _ => None;
     unicode_int := fun _ => None |}.

(* ===================================================================== *)
(** * Lemmas on the handler monad and on documents *)
(* ===================================================================== *)

Lemma neq_negb_eqb (a b : string) : a <> b -> negb (String.eqb a b) = true.
Proof. intros H. apply negb_true_iff, String.eqb_neq, H. Qed.

Lemma append_assoc (a b c : string) : (a ++ b) ++ c = a ++ (b ++ c).
Proof.
  induction a as [|x a IH]; [reflexivity|].
  change (String x ((a ++ b) ++ c) = String x (a ++ (b ++ c))). rewrite IH. reflexivity.
Qed.

Lemma list_ascii_of_string_app s1 s2 :
  list_ascii_of_string (s1 ++ s2)
  = (list_ascii_of_string s1 ++ list_ascii_of_string s2)%list.
Proof. induction s1 as [|c s1 IH]; simpl; [reflexivity|]. f_equal. exact IH. Qed.

Lemma string_of_list_ascii_app l1 l2 :
  string_of_list_ascii (l1 ++ l2) = string_of_list_ascii l1 ++ string_of_list_ascii l2.
Proof. induction l1 as [|c l1 IH]; simpl; [reflexivity|]. rewrite IH. reflexivity. Qed.

Lemma Doc_get_pop_ne k k' d : k <> k' -> Doc.get k (Doc.pop k' d) = Doc.get k d.
Proof.
  intros Hne. induction d as [|[k0 v] d IH]; [reflexivity|].
  cbn [Doc.pop Doc.get]. destruct (String.eqb_spec k0 k') as [->|Hk0].
  - rewrite IH. destruct (String.eqb_spec k' k); congruence.
  - cbn [Doc.get]. rewrite IH. reflexivity.
Qed.

(* ===================================================================== *)
(** * Serialising a model and validating it again *)
(* ===================================================================== *)

Lemma mapM_map_roundtrip {A} (f : A -> value) (g : value -> option A) :
  (forall x, g (f x) = Some x) -> forall l, mapM g (map f l) = Some l.
Proof.
  intros Hgf l. induction l as [|x l IH]; [reflexivity|].
  cbn. rewrite Hgf. cbn. rewrite IH. reflexivity.
Qed.

Lemma required_str_dump k d s :
  Doc.get k d = Some (VStr s) -> Field.required_str k d = Some s.
Proof. intros H. unfold Field.required_str. rewrite H. reflexivity. Qed.

Lemma optional_str_dump k dflt d o :
  Doc.get k d = Some (Field.dump_str o) -> Field.optional_str k dflt d = Some o.
Proof. intros H. unfold Field.optional_str. rewrite H. destruct o; reflexivity. Qed.

Lemma optional_int_dump k dflt d o :
  Doc.get k d = Some (Field.dump_int o) -> Field.optional_int k dflt d = Some o.
Proof. intros H. unfold Field.optional_int. rewrite H. destruct o; reflexivity. Qed.

Lemma optional_list_dump {A} (f : A -> value) (g : value -> option A) k dflt d o :
  (forall x, g (f x) = Some x) ->
  Doc.get k d = Some (Field.dump_list f o) -> Field.optional_list g k dflt d = Some o.
Proof.
  intros Hgf H. unfold Field.optional_list. rewrite H.
  destruct o as [l|]; [|reflexivity].
  cbn. rewrite (mapM_map_roundtrip f g Hgf). reflexivity.
Qed.

Lemma optional_email_dump ve k dflt d o :
  match o with Some e => ve e = Some e | None => True end ->
  Doc.get k d = Some (Field.dump_str o) -> Field.optional_email ve k dflt d = Some o.
Proof.
  intros Hv H. unfold Field.optional_email. rewrite H.
  destruct o as [e|]; [|reflexivity]. cbn. rewrite Hv. reflexivity.
Qed.

Lemma LinkItem_roundtrip x : LinkItem.validate (LinkItem.dump x) = Some x.
Proof.
  destruct x as [t u i]. unfold LinkItem.validate, LinkItem.dump.
  rewrite (required_str_dump "title" _ t) by reflexivity.
  rewrite (required_str_dump "url" _ u) by reflexivity.
  rewrite (optional_str_dump "icon" _ _ i) by reflexivity.
  reflexivity.
Qed.

Lemma SeasonStats_roundtrip x : SeasonStats.validate (SeasonStats.dump x) = Some x.
Proof.
  destruct x. unfold SeasonStats.validate, SeasonStats.dump.
  cbn [SeasonStats.season SeasonStats.club SeasonStats.league SeasonStats.games
       SeasonStats.goals SeasonStats.assists SeasonStats.clean_sheets SeasonStats.minutes].
  rewrite (required_str_dump "season" _ season) by reflexivity.
  rewrite (optional_str_dump "club" _ _ club) by reflexivity.
  rewrite (optional_str_dump "league" _ _ league) by reflexivity.
  rewrite (optional_int_dump "games" _ _ games) by reflexivity.
  rewrite (optional_int_dump "goals" _ _ goals) by reflexivity.
  rewrite (optional_int_dump "assists" _ _ assists) by reflexivity.
  rewrite (optional_int_dump "clean_sheets" _ _ clean_sheets) by reflexivity.
  rewrite (optional_int_dump "minutes" _ _ minutes) by reflexivity.
  reflexivity.
Qed.

Lemma Testimonial_roundtrip x : Testimonial.validate (Testimonial.dump x) = Some x.
Proof.
  destruct x. unfold Testimonial.validate, Testimonial.dump.
  cbn [Testimonial.player_slug Testimonial.author Testimonial.role Testimonial.quote].
  rewrite (required_str_dump "player_slug" _ player_slug) by reflexivity.
  rewrite (optional_str_dump "author" _ _ author) by reflexivity.
  rewrite (optional_str_dump "role" _ _ role) by reflexivity.
  rewrite (required_str_dump "quote" _ quote) by reflexivity.
  reflexivity.
Qed.

Lemma Player_roundtrip ve x :
  Player.validated ve x -> Player.validate ve (Player.dump x) = Some x.
Proof.
  destruct x. unfold Player.validated, Player.validate, Player.dump.
  cbn [Player.slug Player.name Player.position Player.age Player.country
       Player.current_club Player.league Player.photo_url Player.highlight_title
       Player.highlight_url Player.highlight_description Player.height_cm
       Player.weight_kg Player.dominant_foot Player.main_position
       Player.secondary_positions Player.past_clubs Player.bio Player.links
       Player.stats Player.contact_email].
  intros Hv.
  rewrite (required_str_dump "slug" _ slug) by reflexivity.
  rewrite (required_str_dump "name" _ name) by reflexivity.
  rewrite (required_str_dump "position" _ position) by reflexivity.
  rewrite (optional_int_dump "age" _ _ age) by reflexivity.
  rewrite (optional_str_dump "country" _ _ country) by reflexivity.
  rewrite (optional_str_dump "current_club" _ _ current_club) by reflexivity.
  rewrite (optional_str_dump "league" _ _ league) by reflexivity.
  rewrite (optional_str_dump "photo_url" _ _ photo_url) by reflexivity.
  rewrite (optional_str_dump "highlight_title" _ _ highlight_title) by reflexivity.
  rewrite (optional_str_dump "highlight_url" _ _ highlight_url) by reflexivity.
  rewrite (optional_str_dump "highlight_description" _ _ highlight_description)
    by reflexivity.
  rewrite (optional_int_dump "height_cm" _ _ height_cm) by reflexivity.
  rewrite (optional_int_dump "weight_kg" _ _ weight_kg) by reflexivity.
  rewrite (optional_str_dump "dominant_foot" _ _ dominant_foot) by reflexivity.
  rewrite (optional_str_dump "main_position" _ _ main_position) by reflexivity.
  rewrite (optional_list_dump VStr Field.str_elem "secondary_positions" _ _
             secondary_positions) by first [reflexivity | intros; reflexivity].
  rewrite (optional_list_dump VStr Field.str_elem "past_clubs" _ _ past_clubs)
    by first [reflexivity | intros; reflexivity].
  rewrite (optional_str_dump "bio" _ _ bio) by reflexivity.
  rewrite (optional_list_dump (fun l => VDoc (model_dump l)) Field.model_elem
             "links" _ _ links) by first [reflexivity | intros; apply LinkItem_roundtrip].
  rewrite (optional_list_dump (fun l => VDoc (model_dump l)) Field.model_elem
             "stats" _ _ stats) by first [reflexivity | intros; apply SeasonStats_roundtrip].
  rewrite (optional_email_dump ve "contact_email" _ _ contact_email)
    by first [exact Hv | reflexivity].
  reflexivity.
Qed.

Lemma Testimonial_validate_slug d t :
  Testimonial.validate d = Some t ->
  Doc.get "player_slug" d = Some (VStr (Testimonial.player_slug t)).
Proof.
  unfold Testimonial.validate, Field.required_str.
  destruct (Doc.get "player_slug" d) as [[]|]; try discriminate.
  cbn. intros H.
  destruct (Field.optional_str "author" None d); [|discriminate].
  destruct (Field.optional_str "role" None d); [|discriminate].
  cbn in H. destruct (Doc.get "quote" d) as [[]|]; try discriminate.
  cbn in H. injection H as <-. reflexivity.
Qed.

(* ===================================================================== *)
(** * Lemmas on the store *)
(* ===================================================================== *)

Lemma collection_insert_same name doc d :
  Mongo.collection name (snd (Mongo.insert_one name doc d))
  = (Mongo.collection name d ++ [("_id", VObjectId (next_oid d)) :: doc])%list.
Proof.
  unfold Mongo.insert_one, Mongo.collection at 1. cbn.
  rewrite lookup_insert_eq. reflexivity.
Qed.

Lemma collection_insert_other name name' doc d :
  name <> name' ->
  Mongo.collection name' (snd (Mongo.insert_one name doc d)) = Mongo.collection name' d.
Proof.
  intros Hne. unfold Mongo.insert_one, Mongo.collection at 1. cbn.
  rewrite lookup_insert_ne by exact Hne. reflexivity.
Qed.

Lemma find_insert_same name field s doc d :
  Mongo.find name field s (snd (Mongo.insert_one name doc d))
  = (Mongo.find name field s d
     ++ (if Mongo.matches field s (("_id", VObjectId (next_oid d)) :: doc)
         then [("_id", VObjectId (next_oid d)) :: doc] else []))%list.
Proof.
  unfold Mongo.find. rewrite collection_insert_same, List.filter_app. reflexivity.
Qed.

Lemma find_insert_other name name' field s doc d :
  name <> name' ->
  Mongo.find name' field s (snd (Mongo.insert_one name doc d)) = Mongo.find name' field s d.
Proof.
  intros Hne. unfold Mongo.find. rewrite collection_insert_other by exact Hne. reflexivity.
Qed.

Lemma Player_dump_slug_matches p oid :
  Mongo.matches "slug" (Player.slug p) (("_id", VObjectId oid) :: Player.dump p) = true.
Proof. unfold Mongo.matches. cbn. apply String.eqb_refl. Qed.

Lemma matches_valid_testimonial slug doc t :
  Testimonial.validate (Doc.pop "_id" doc) = Some t ->
  Mongo.matches "player_slug" slug doc = String.eqb (Testimonial.player_slug t) slug.
Proof.
  intros H. apply Testimonial_validate_slug in H.
  rewrite Doc_get_pop_ne in H by discriminate.
  unfold Mongo.matches. rewrite H. reflexivity.
Qed.

Lemma testimonials_valid_empty : testimonials_valid Mongo.empty.
Proof. constructor. Qed.

Lemma testimonials_valid_insert_other name doc d :
  name <> "testimonial" ->
  testimonials_valid d -> testimonials_valid (snd (Mongo.insert_one name doc d)).
Proof.
  intros Hne Hv. unfold testimonials_valid.
  rewrite collection_insert_other by exact Hne. exact Hv.
Qed.

Lemma testimonials_valid_insert t d :
  testimonials_valid d ->
  testimonials_valid (snd (Mongo.insert_one "testimonial" (Testimonial.dump t) d)).
Proof.
  intros Hv. unfold testimonials_valid. rewrite collection_insert_same.
  apply Forall_app. split; [exact Hv|]. constructor; [|constructor].
  change (Doc.pop "_id" (("_id", VObjectId (next_oid d)) :: Testimonial.dump t))
    with (Testimonial.dump t).
  rewrite Testimonial_roundtrip. eauto.
Qed.

(* ===================================================================== *)
(** * The regular expression matcher *)
(* ===================================================================== *)

Module ReFacts.
Import Re.

#[local] Hint Constructors lang : core.

(** ** [accepts] decides the language *)

Lemma nullable_lang r : nullable r = true <-> lang r [].
Proof.
  induction r as [| |c|rs|r1 IH1 r2 IH2|r1 IH1 r2 IH2|r IH]; cbn.
  - split; [discriminate|]. intros H; inv H.
  - split; auto.
  - split; [discriminate|]. intros H; inv H.
  - split; [discriminate|]. intros H; inv H.
  - rewrite andb_true_iff, IH1, IH2. split.
    + intros [H1 H2]. change (@nil ascii) with (@nil ascii ++ [])%list. auto.
    + intros H. inv H.
      match goal with E : (?a ++ ?b)%list = [] |- _ => apply app_eq_nil in E as [-> ->] end.
      auto.
  - rewrite orb_true_iff, IH1, IH2. split.
    + intros [H|H]; auto.
    + intros H; inv H; auto.
  - split; auto.
Qed.

Lemma lang_star_cons_inv r c s :
  lang (Star r) (c :: s) ->
  exists s1 s2, s = (s1 ++ s2)%list /\ lang r (c :: s1) /\ lang (Star r) s2.
Proof.
  intros H. remember (Star r) as r' eqn:Er. remember (c :: s) as cs eqn:Es.
  revert Er Es.
  induction H as [| | | | | | |r0 s1 s2 H1 _ H2 IH2]; try discriminate.
  intros Er Es. injection Er as ->.
  destruct s1 as [|c1 s1].
  - cbn in Es. apply IH2; auto.
  - cbn in Es. injection Es as -> <-. eauto.
Qed.

Lemma lang_cat_cons_inv r1 r2 c s :
  lang (Cat r1 r2) (c :: s) ->
  (lang r1 [] /\ lang r2 (c :: s))
  \/ exists s1 s2, s = (s1 ++ s2)%list /\ lang r1 (c :: s1) /\ lang r2 s2.
Proof.
  intros H. inv H.
  match goal with E : (?a ++ ?b)%list = _ |- _ => destruct a as [|c1 a]; cbn in E end.
  - subst. left. auto.
  - match goal with E : _ :: _ = _ :: _ |- _ => injection E as -> <- end.
    right. eauto.
Qed.

Lemma lang_cat_cons r1 r2 c s1 s2 :
  lang r1 (c :: s1) -> lang r2 s2 -> lang (Cat r1 r2) (c :: s1 ++ s2).
Proof. intros H1 H2. change (c :: s1 ++ s2)%list with ((c :: s1) ++ s2)%list. auto. Qed.

Lemma deriv_lang c r : forall s, lang (deriv c r) s <-> lang r (c :: s).
Proof.
  induction r as [| |c'|rs|r1 IH1 r2 IH2|r1 IH1 r2 IH2|r IH]; intros s; cbn.
  - split; intros H; inv H.
  - split; intros H; inv H.
  - destruct (Ascii.eqb_spec c' c) as [->|Hne].
    + split; intros H; inv H; auto.
    + split; intros H; inv H; congruence.
  - destruct (in_class rs c) eqn:E.
    + split; intros H; inv H; auto.
    + split; intros H; inv H; congruence.
  - assert (Hcat : lang (Cat (deriv c r1) r2) s -> lang (Cat r1 r2) (c :: s)).
    { intros H; inv H. apply lang_cat_cons; [apply IH1|]; assumption. }
    destruct (nullable r1) eqn:En.
    + split.
      * intros H; inv H; [auto|].
        apply nullable_lang in En. change (c :: s) with ([] ++ c :: s)%list.
        constructor; [assumption|]. apply IH2. assumption.
      * intros H. apply lang_cat_cons_inv in H as [[_ H2]|(s1 & s2 & -> & H1 & H2)].
        -- apply lang_alt_r, IH2, H2.
        -- apply lang_alt_l. constructor; [apply IH1|]; assumption.
    + split; [exact Hcat|].
      intros H. apply lang_cat_cons_inv in H as [[H1 _]|(s1 & s2 & -> & H1 & H2)].
      * apply nullable_lang in H1. congruence.
      * constructor; [apply IH1|]; assumption.
  - split.
    + intros H; inv H; [apply lang_alt_l, IH1|apply lang_alt_r, IH2]; assumption.
    + intros H; inv H; [apply lang_alt_l, IH1|apply lang_alt_r, IH2]; assumption.
  - split.
    + intros H; inv H. change (c :: s1 ++ s2)%list with ((c :: s1) ++ s2)%list.
      constructor; [apply IH|]; assumption.
    + intros H. apply lang_star_cons_inv in H as (s1 & s2 & -> & H1 & H2).
      constructor; [apply IH|]; assumption.
Qed.

Theorem accepts_lang r s : accepts r s = true <-> lang r s.
Proof.
  revert r. induction s as [|c s IH]; intros r; cbn.
  - apply nullable_lang.
  - rewrite IH. apply deriv_lang.
Qed.


(** ** The language of [slug_regex] *)

Lemma in_class_alnum c :
  in_class [("a", "z"); ("0", "9")]%char c = is_lower_alnum c.
Proof.
  unfold in_class, in_range, is_lower_alnum. cbn [existsb fst snd].
  rewrite orb_false_r. reflexivity.
Qed.

Lemma alnum_not_dash c : is_lower_alnum c = true -> Ascii.eqb c "-" = false.
Proof.
  intros H. destruct (Ascii.eqb_spec c "-") as [->|]; [|reflexivity].
  vm_compute in H. discriminate.
Qed.

Lemma star_alnum_lang s : lang (Star alnum) s <-> forallb is_lower_alnum s = true.
Proof.
  split.
  - intros H. remember (Star alnum) as r eqn:Er. revert Er.
    induction H as [| | | | | | |r0 s1 s2 H1 _ H2 IH2]; try discriminate.
    + reflexivity.
    + intros Er. injection Er as ->. rewrite forallb_app, IH2 by reflexivity.
      inv H1. cbn. rewrite <- in_class_alnum.
      match goal with E : in_class _ _ = true |- _ => rewrite E end. reflexivity.
  - induction s as [|c s IH]; cbn; [constructor|].
    rewrite andb_true_iff. intros [Hc Hs].
    change (c :: s) with ([c] ++ s)%list. constructor; [|auto].
    constructor. rewrite in_class_alnum. exact Hc.
Qed.

Lemma plus_alnum_lang s : lang (Plus alnum) s <-> segment_ok s = true.
Proof.
  unfold Plus. split.
  - intros H. inv H.
    match goal with H1 : lang alnum _ |- _ => inv H1 end.
    match goal with H2 : lang (Star alnum) _ |- _ => apply star_alnum_lang in H2; rename H2 into Hs end.
    cbn. rewrite <- in_class_alnum.
    match goal with E : in_class _ _ = true |- _ => rewrite E end. exact Hs.
  - destruct s as [|c s]; [discriminate|]. cbn. rewrite andb_true_iff. intros [Hc Hs].
    change (c :: s) with ([c] ++ s)%list. constructor.
    + constructor. rewrite in_class_alnum. exact Hc.
    + apply star_alnum_lang, Hs.
Qed.

Lemma dash_segment_lang s :
  lang dash_segment s <-> exists seg, s = "-"%char :: seg /\ segment_ok seg = true.
Proof.
  unfold dash_segment. split.
  - intros H. inv H.
    match goal with H1 : lang (Chr _) _ |- _ => inv H1 end.
    eexists. split; [reflexivity|]. apply plus_alnum_lang. assumption.
  - intros (seg & -> & Hseg). change ("-"%char :: seg) with (["-"%char] ++ seg)%list.
    constructor; [constructor|]. apply plus_alnum_lang, Hseg.
Qed.

(** ** Splitting at dashes and joining with dashes *)

Lemma split_on_cons sep s : exists seg segs, split_on sep s = seg :: segs.
Proof.
  destruct s as [|c s]; cbn; [eauto|].
  destruct (Ascii.eqb c sep); [eauto|]. destruct (split_on sep s); eauto.
Qed.

Lemma join_split_on s : join_dash (split_on "-" s) = s.
Proof.
  induction s as [|c s IH]; [reflexivity|].
  cbn [split_on]. destruct (split_on_cons "-" s) as (seg & segs & E).
  rewrite E in *. cbn in IH.
  destruct (Ascii.eqb_spec c "-") as [->|Hne]; cbn; congruence.
Qed.

Lemma split_on_segment seg :
  segment_ok seg = true -> split_on "-" seg = [seg].
Proof.
  intros H. assert (Hall : forallb is_lower_alnum seg = true).
  { destruct seg; [discriminate|exact H]. }
  clear H. induction seg as [|c seg IH]; [reflexivity|].
  cbn in Hall. apply andb_true_iff in Hall as [Hc Hs].
  cbn [split_on]. rewrite (alnum_not_dash c Hc), (IH Hs). reflexivity.
Qed.

Lemma split_on_segment_dash seg rest :
  forallb is_lower_alnum seg = true ->
  split_on "-" (seg ++ "-"%char :: rest) = seg :: split_on "-" rest.
Proof.
  intros Hall. induction seg as [|c seg IH]; [reflexivity|].
  cbn in Hall. apply andb_true_iff in Hall as [Hc Hs].
  cbn [app split_on]. rewrite (alnum_not_dash c Hc), (IH Hs). reflexivity.
Qed.

Lemma segment_ok_all seg : segment_ok seg = true -> forallb is_lower_alnum seg = true.
Proof. destruct seg; [discriminate|auto]. Qed.

Lemma dash_segments_split t :
  lang (Star dash_segment) t ->
  forall seg, segment_ok seg = true ->
    forallb segment_ok (split_on "-" (seg ++ t)) = true.
Proof.
  intros H. remember (Star dash_segment) as r eqn:Er. revert Er.
  induction H as [| | | | | | |r0 s1 s2 H1 _ H2 IH2]; try discriminate.
  - intros _ seg Hseg. rewrite app_nil_r, (split_on_segment seg Hseg). cbn.
    rewrite andb_true_r. exact Hseg.
  - intros Er seg Hseg. injection Er as ->.
    apply dash_segment_lang in H1 as (seg1 & -> & Hseg1).
    cbn [app]. rewrite split_on_segment_dash by (apply segment_ok_all, Hseg).
    cbn [forallb]. rewrite Hseg, (IH2 eq_refl seg1 Hseg1). reflexivity.
Qed.

Lemma dash_segments_join rest :
  forallb segment_ok rest = true -> lang (Star dash_segment) (flat_map (cons "-"%char) rest).
Proof.
  induction rest as [|seg rest IH]; cbn; [constructor|].
  rewrite andb_true_iff. intros [Hseg Hrest].
  change ("-"%char :: seg ++ flat_map (cons "-"%char) rest)%list
    with (("-"%char :: seg) ++ flat_map (cons "-"%char) rest)%list.
  constructor; [|auto]. apply dash_segment_lang. eauto.
Qed.

Theorem slug_regex_lang cs :
  lang slug_regex cs <-> forallb segment_ok (split_on "-" cs) = true.
Proof.
  change slug_regex with (Cat (Plus alnum) (Star dash_segment)). split.
  - intros H. inv H. apply dash_segments_split; [assumption|].
    apply plus_alnum_lang. assumption.
  - intros H. destruct (split_on_cons "-" cs) as (seg & rest & E).
    rewrite E in H. rewrite <- (join_split_on cs), E.
    cbn in H. apply andb_true_iff in H as [Hseg Hrest]. cbn [join_dash].
    constructor; [apply plus_alnum_lang, Hseg|apply dash_segments_join, Hrest].
Qed.

End ReFacts.

Lemma accepts_slug_wellformed s :
  Re.accepts slug_regex (list_ascii_of_string s) = slug_wellformed s.
Proof.
  unfold slug_wellformed. apply eq_true_iff_eq.
  rewrite ReFacts.accepts_lang. apply ReFacts.slug_regex_lang.
Qed.

(** [slug_regex.match] accepts the well-formed slugs and, besides them, a
    well-formed slug followed by one newline. *)
Theorem slug_regex_match_spec s :
  slug_regex_match s = true
  <-> slug_wellformed s = true \/ exists s', s = s' ++ nl /\ slug_wellformed s' = true.
Proof.
  unfold slug_regex_match, Re.match_dollar. rewrite orb_true_iff, accepts_slug_wellformed.
  split.
  - intros [H|H]; [left; exact H|right].
    destruct (rev (list_ascii_of_string s)) as [|c before] eqn:E; [discriminate|].
    destruct (Ascii.eqb_spec c "010") as [->|Hne].
    + exists (string_of_list_ascii (rev before)). split.
      * rewrite <- (string_of_list_ascii_of_string s), <- (rev_involutive (list_ascii_of_string s)), E.
        cbn [rev]. rewrite string_of_list_ascii_app. reflexivity.
      * rewrite <- accepts_slug_wellformed, list_ascii_of_string_of_list_ascii. exact H.
    + exfalso. destruct c as [[] [] [] [] [] [] [] []]; try discriminate. apply Hne. reflexivity.
  - intros [H|(s' & -> & H)]; [left; exact H|right].
    rewrite list_ascii_of_string_app, rev_app_distr. cbn.
    rewrite rev_involutive, accepts_slug_wellformed. exact H.
Qed.

(** The slugs named by the specification, and a slug with a trailing
    newline. *)
Example slug_regex_examples :
  slug_regex_match "john-doe" = true
  /\ slug_regex_match "John_Doe" = false
  /\ slug_regex_match "-abc" = false
  /\ slug_regex_match "abc--d" = false
  /\ slug_regex_match ("abc" ++ nl) = true
  /\ slug_wellformed ("abc" ++ nl) = false.
Proof. repeat split; reflexivity. Qed.

(* ===================================================================== *)
(** * Facts on the notification sender *)
(* ===================================================================== *)

(** With a port that [int] accepts and a message that can be built,
    whatever the session does is swallowed: the sender returns [None]. *)
Lemma send_email_background_swallows env net to_email subject content port :
  Py.int (unicode_int net) (getenv_default env "SMTP_PORT" "587") = Some port ->
  mime_text net content = None ->
  fst (send_email_background env net to_email subject content) = Return tt.
Proof.
  intros Hp Hm. unfold send_email_background. rewrite Hp.
  destruct (negb _); [reflexivity|].
  destruct (getenv env "SMTP_HOST"), (getenv env "SMTP_USER"), (getenv env "SMTP_PASS");
    try reflexivity.
  rewrite Hm. unfold swallow.
  destruct (smtp_session _ _ _ _ _ _ _ _) as [[u|e] evs]; [destruct u|]; reflexivity.
Qed.

(** Without a host, a user or a password (absent or empty) nothing is done
    on the network, in every environment. *)
Lemma send_email_background_unconfigured env net to_email subject content :
  Py.truthy_opt (getenv env "SMTP_HOST") && Py.truthy_opt (getenv env "SMTP_USER")
    && Py.truthy_opt (getenv env "SMTP_PASS") = false ->
  snd (send_email_background env net to_email subject content) = [].
Proof.
  intros Hc. unfold send_email_background.
  destruct (Py.int _ _); [|reflexivity]. rewrite Hc. reflexivity.
Qed.

(** The sender returns [None], or it raises one of two exceptions, each
    before anything is done on the network: the [ValueError] of a port
    that [int] rejects, or, with host, user and password set, the
    exception that [MIMEText] ended in.  Both stand outside the [try]; no
    failure of the session with the mail host reaches the caller. *)
Lemma send_email_background_outcome env net to_email subject content :
  fst (send_email_background env net to_email subject content) = Return tt
  \/ (Py.int (unicode_int net) (getenv_default env "SMTP_PORT" "587") = None
      /\ send_email_background env net to_email subject content = (Raise ValueError, []))
  \/ (exists port e,
        Py.int (unicode_int net) (getenv_default env "SMTP_PORT" "587") = Some port
        /\ Py.truthy_opt (getenv env "SMTP_HOST") && Py.truthy_opt (getenv env "SMTP_USER")
             && Py.truthy_opt (getenv env "SMTP_PASS") = true
        /\ mime_text net content = Some e
        /\ send_email_background env net to_email subject content = (Raise e, [])).
Proof.
  destruct (Py.int (unicode_int net) (getenv_default env "SMTP_PORT" "587"))
    as [port|] eqn:Hp.
  - destruct (mime_text net content) as [e|] eqn:Hm.
    + destruct (Py.truthy_opt (getenv env "SMTP_HOST") && Py.truthy_opt (getenv env "SMTP_USER")
                && Py.truthy_opt (getenv env "SMTP_PASS")) eqn:Hc.
      * right. right. exists port, e. do 3 (split; [reflexivity|]).
        unfold send_email_background. rewrite Hp, Hc. cbn [negb].
        apply andb_prop in Hc as [Hc Hpass]. apply andb_prop in Hc as [Hhost Huser].
        destruct (getenv env "SMTP_HOST"); [|discriminate Hhost].
        destruct (getenv env "SMTP_USER"); [|discriminate Huser].
        destruct (getenv env "SMTP_PASS"); [|discriminate Hpass].
        rewrite Hm. reflexivity.
      * left. unfold send_email_background. rewrite Hp, Hc. reflexivity.
    + left. apply (send_email_background_swallows _ _ _ _ _ port Hp Hm).
  - right. left. split; [reflexivity|]. unfold send_email_background. rewrite Hp. reflexivity.
Qed.

(** A port literal as [int] reads it, whatever the Unicode database holds:
    white space around the literal, a sign, single underscores between
    digits; the character 28 is no white space, and a literal of 4301
    digits is refused where one of 4300 is read, underscores not
    counted. *)
Example int_examples (unicode_int : string -> option Z) :
  Py.int unicode_int "587" = Some 587
  /\ Py.int unicode_int " 2_525 " = Some 2525
  /\ Py.int unicode_int "-1" = Some (-1)
  /\ Py.int unicode_int "smtp" = None
  /\ Py.int unicode_int "" = None
  /\ Py.int unicode_int "5_" = None
  /\ Py.int unicode_int (String "028"%char "587") = None
  /\ Py.int unicode_int (string_of_list_ascii (repeat "1"%char 4300))
     = Some ((10 ^ 4300 - 1) / 9)
  /\ Py.int unicode_int (string_of_list_ascii (repeat "1"%char 4301)) = None
  /\ Py.int unicode_int (string_of_list_ascii ("1"%char :: concat (repeat ["_"%char; "1"%char] 4299)))
     = Some ((10 ^ 4300 - 1) / 9).
Proof. repeat split; vm_compute; reflexivity. Qed.

(* ===================================================================== *)
(** * Facts on the handlers *)
(* ===================================================================== *)

Section HandlerFacts.

Context (validate_email : string -> option string).
Context (Database_bool : pyresult bool).
Context (repr_compound : value -> string).

Lemma create_player_invalid_slug p db :
  slug_regex_match (Player.slug p) = false ->
  create_player validate_email Database_bool repr_compound p db
  = (Raise (HTTPException 400 "Invalid slug. Use lowercase letters, numbers and dashes."),
     db).
Proof. intros H. unfold create_player. rewrite H. reflexivity. Qed.

Lemma create_player_first p d :
  Database_bool = Return true ->
  slug_regex_match (Player.slug p) = true ->
  Player.validated validate_email p ->
  Mongo.find "player" "slug" (Player.slug p) d = [] ->
  create_player validate_email Database_bool repr_compound p (Some d)
  = (Return p, Some (snd (Mongo.insert_one "player" (Player.dump p) d))).
Proof.
  intros Hb Hslug Hval Hfresh. unfold create_player. rewrite Hslug. cbn [negb].
  unfold bind, db_bool, db_find, ret, raise, lift, create_document, db_find_one.
  rewrite Hb. change (collection_name Player.t) with "player".
  rewrite Hfresh. cbn [Mongo.limit take truthy_list model_dump Player_model].
  destruct (Mongo.insert_one "player" (Player.dump p) d) as [oid d'] eqn:E.
  assert (d' = snd (Mongo.insert_one "player" (Player.dump p) d)) as Hd'
    by (rewrite E; reflexivity).
  assert (oid = next_oid d) as ->
    by (unfold Mongo.insert_one in E; inversion E; reflexivity).
  unfold Mongo.find_one.
  rewrite Hd', find_insert_same, Hfresh, Player_dump_slug_matches.
  cbn [app head stringify_id Doc.get String.eqb Ascii.eqb Bool.eqb Doc.set Doc.pop].
  change (Doc.pop "_id" (Player.dump p)) with (Player.dump p).
  unfold construct. cbn [model_validate Player_model snd].
  rewrite (Player_roundtrip validate_email p Hval). reflexivity.
Qed.

Lemma create_player_conflict p d :
  Database_bool = Return true ->
  slug_regex_match (Player.slug p) = true ->
  Mongo.find "player" "slug" (Player.slug p) d <> [] ->
  create_player validate_email Database_bool repr_compound p (Some d)
  = (Raise (HTTPException 409 "Slug already exists"), Some d).
Proof.
  intros Hb Hslug Hex. unfold create_player. rewrite Hslug. cbn [negb].
  unfold bind, db_bool, db_find, ret, raise. rewrite Hb.
  change (collection_name Player.t) with "player".
  destruct (Mongo.find "player" "slug" (Player.slug p) d) as [|doc docs]; [congruence|].
  reflexivity.
Qed.

(** When the driver refuses the truth test of an open handle, a creation
    with an accepted slug ends in the driver's exception and writes nothing. *)
Lemma create_player_truth_test_raises p d e :
  Database_bool = Raise e ->
  slug_regex_match (Player.slug p) = true ->
  create_player validate_email Database_bool repr_compound p (Some d) = (Raise e, Some d).
Proof.
  intros Hb Hslug. unfold create_player. rewrite Hslug. cbn [negb].
  unfold bind, db_bool. rewrite Hb. reflexivity.
Qed.

Lemma get_player_state slug db : snd (get_player validate_email slug db) = db.
Proof.
  unfold get_player, bind, db_find_one, raise, lift.
  destruct db as [d|]; [|reflexivity].
  destruct (Mongo.find_one _ _ _ d) as [doc|]; [|reflexivity].
  destruct (negb (Py.truthy (VDoc doc))); reflexivity.
Qed.

Lemma get_player_after_create p d :
  Player.validated validate_email p ->
  Mongo.find "player" "slug" (Player.slug p) d = [] ->
  get_player validate_email (Player.slug p)
    (Some (snd (Mongo.insert_one "player" (Player.dump p) d)))
  = (Return p, Some (snd (Mongo.insert_one "player" (Player.dump p) d))).
Proof.
  intros Hval Hfresh. unfold get_player, bind, db_find_one, lift.
  change (collection_name Player.t) with "player". unfold Mongo.find_one.
  rewrite find_insert_same, Hfresh, Player_dump_slug_matches.
  cbn [app head Py.truthy negb Doc.pop String.eqb Ascii.eqb Bool.eqb].
  change (Doc.pop "_id" (Player.dump p)) with (Player.dump p).
  unfold construct. cbn [model_validate Player_model].
  rewrite (Player_roundtrip validate_email p Hval). reflexivity.
Qed.

Lemma testimonials_loop_filter slug coll all : forall res,
  mapM (fun doc => Testimonial.validate (Doc.pop "_id" doc)) coll = Some all ->
  testimonials_loop (List.filter (Mongo.matches "player_slug" slug) coll) res
  = Return (res ++ List.filter (fun t => String.eqb (Testimonial.player_slug t) slug) all)%list.
Proof.
  revert all. induction coll as [|doc coll IH]; intros all res Hall.
  - injection Hall as <-. cbn. rewrite app_nil_r. reflexivity.
  - cbn in Hall.
    destruct (Testimonial.validate (Doc.pop "_id" doc)) as [t|] eqn:Et; [|discriminate].
    cbn in Hall. destruct (mapM _ coll) as [ts|] eqn:Ets; [|discriminate].
    cbn in Hall. injection Hall as <-.
    cbn [List.filter]. rewrite (matches_valid_testimonial slug doc t Et).
    destruct (String.eqb (Testimonial.player_slug t) slug).
    + cbn [testimonials_loop]. unfold construct. cbn [model_validate Testimonial_model].
      rewrite Et. rewrite (IH ts _ eq_refl), <- app_assoc. reflexivity.
    + apply IH. reflexivity.
Qed.

Lemma contact_content_format payload now :
  contact_content payload now
  = "Name: " ++ ContactSubmission.name payload ++ nl
    ++ "Role: " ++ ContactSubmission.role payload ++ nl
    ++ "Club: " ++ Py.or_str (ContactSubmission.club_name payload) "-" ++ nl
    ++ "Email: " ++ Py.or_str (ContactSubmission.email payload) "-" ++ nl
    ++ "WhatsApp: " ++ Py.or_str (ContactSubmission.whatsapp payload) "-" ++ nl
    ++ "Country: " ++ Py.or_str (ContactSubmission.country payload) "-" ++ nl
    ++ nl
    ++ "Message:" ++ nl ++ Py.or_str (ContactSubmission.message payload) "-" ++ nl
    ++ nl
    ++ "Submitted at: " ++ now ++ " UTC".
Proof.
  unfold contact_content. cbn [Py.join]. rewrite !append_assoc. reflexivity.
Qed.

(** What [submit_contact] does on an open store when the slugs agree. *)
Lemma submit_contact_run slug payload tasks now d :
  ContactSubmission.player_slug payload = slug ->
  submit_contact validate_email repr_compound slug payload tasks now (Some d)
  = (Return ([("status", VStr "ok")],
             match Mongo.find_one "player" "slug" slug d with
             | Some p =>
                 if Py.truthy (VDoc p) && Py.truthy (Doc.get_default "contact_email" p) then
                   add_task tasks
                     (Task (Doc.get_default "contact_email" p)
                        ("New Contact/Trial Request for "
                         ++ py_str repr_compound (Doc.get_default "name" p))
                        (contact_content payload now))
                 else tasks
             | None => tasks
             end),
     Some (snd (Mongo.insert_one "contactsubmission" (ContactSubmission.dump payload) d))).
Proof.
  intros Hs. unfold submit_contact. rewrite Hs, String.eqb_refl. cbn [negb].
  unfold bind, create_document, db_find_one, ret.
  change (collection_name ContactSubmission.t) with "contactsubmission".
  change (collection_name Player.t) with "player".
  cbn [model_dump ContactSubmission_model].
  destruct (Mongo.insert_one "contactsubmission" (ContactSubmission.dump payload) d)
    as [oid d'] eqn:E.
  assert (d' = snd (Mongo.insert_one "contactsubmission" (ContactSubmission.dump payload) d))
    as -> by (rewrite E; reflexivity).
  unfold Mongo.find_one. rewrite find_insert_other by discriminate. rewrite E. reflexivity.
Qed.

Lemma truthy_contact_email_doc p :
  Py.truthy (Doc.get_default "contact_email" p) = true -> Py.truthy (VDoc p) = true.
Proof. destruct p; [discriminate|reflexivity]. Qed.

(** ** Every request leaves the store as it is or inserts one document *)

Lemma create_player_effect p d :
  effect d (snd (create_player validate_email Database_bool repr_compound p (Some d))).
Proof.
  unfold create_player. destruct (negb _); [apply effect_none|].
  unfold bind at 1. unfold bind at 1. unfold db_bool.
  destruct Database_bool as [[|]|e]; [| |apply effect_none].
  - unfold bind at 1. unfold db_find, ret.
    destruct (truthy_list _); [apply effect_none|].
    unfold bind, create_document. change (collection_name Player.t) with "player".
    cbn [model_dump Player_model].
    destruct (Mongo.insert_one "player" _ d) as [oid d'] eqn:E.
    replace d' with (snd (Mongo.insert_one "player" (Player.dump p) d))
      by (rewrite E; reflexivity).
    unfold db_find_one, lift.
    destruct (stringify_id _ _) as [created|e]; apply effect_insert; discriminate.
  - unfold ret. cbn [truthy_list].
    unfold bind, create_document. change (collection_name Player.t) with "player".
    cbn [model_dump Player_model].
    destruct (Mongo.insert_one "player" _ d) as [oid d'] eqn:E.
    replace d' with (snd (Mongo.insert_one "player" (Player.dump p) d))
      by (rewrite E; reflexivity).
    unfold db_find_one, lift.
    destruct (stringify_id _ _) as [created|e]; apply effect_insert; discriminate.
Qed.

Lemma add_testimonial_effect slug t d :
  effect d (snd (add_testimonial slug t (Some d))).
Proof.
  unfold add_testimonial. destruct (negb _); [apply effect_none|].
  unfold bind, create_document, ret.
  change (collection_name Testimonial.t) with "testimonial".
  cbn [model_dump Testimonial_model].
  destruct (Mongo.insert_one _ _ d) as [oid d'] eqn:E.
  replace d' with (snd (Mongo.insert_one "testimonial" (Testimonial.dump t) d))
    by (rewrite E; reflexivity).
  apply effect_insert. eauto.
Qed.

Lemma submit_contact_effect slug payload tasks now d :
  effect d (snd (submit_contact validate_email repr_compound slug payload tasks now (Some d))).
Proof.
  destruct (String.eqb_spec (ContactSubmission.player_slug payload) slug) as [Hs|Hne].
  - rewrite (submit_contact_run slug payload tasks now d Hs).
    apply effect_insert. discriminate.
  - unfold submit_contact. apply String.eqb_neq in Hne. rewrite Hne. apply effect_none.
Qed.

Lemma list_testimonials_state slug db : snd (list_testimonials slug db) = db.
Proof.
  unfold list_testimonials, bind, db_find, lift. destruct db as [d|]; reflexivity.
Qed.

Lemma after_effect req d :
  effect d (after validate_email Database_bool repr_compound req (Some d)).
Proof.
  destruct req as [p|slug|slug|slug t|slug payload now]; cbn [after].
  - apply create_player_effect.
  - rewrite get_player_state. apply effect_none.
  - rewrite list_testimonials_state. apply effect_none.
  - apply add_testimonial_effect.
  - apply submit_contact_effect.
Qed.

Lemma effect_keeps_valid d db' :
  effect d db' -> testimonials_valid d -> exists d', db' = Some d' /\ testimonials_valid d'.
Proof.
  intros [|name doc Hdoc] Hv; [eauto|].
  eexists. split; [reflexivity|].
  destruct (String.eqb_spec name "testimonial") as [->|Hne].
  - destruct (Hdoc eq_refl) as [t ->]. apply testimonials_valid_insert, Hv.
  - apply testimonials_valid_insert_other; assumption.
Qed.

Lemma effect_keeps_found d db' name field s :
  effect d db' -> Mongo.find name field s d <> [] ->
  exists d', db' = Some d' /\ Mongo.find name field s d' <> [].
Proof.
  intros [|name' doc _] Hf; [eauto|].
  eexists. split; [reflexivity|].
  destruct (String.eqb_spec name' name) as [->|Hne].
  - rewrite find_insert_same. destruct (Mongo.find name field s d); [congruence|discriminate].
  - rewrite find_insert_other by exact Hne. exact Hf.
Qed.

(** The invariant of the testimonial collection holds after every sequence
    of requests. *)
Lemma after_all_keeps_valid reqs : forall d,
  testimonials_valid d ->
  exists d', after_all validate_email Database_bool repr_compound reqs (Some d) = Some d'
             /\ testimonials_valid d'.
Proof.
  induction reqs as [|req reqs IH]; intros d Hv; [cbn; eauto|].
  cbn [after_all fold_left].
  destruct (effect_keeps_valid d _ (after_effect req d) Hv) as (d1 & -> & Hv1).
  apply IH, Hv1.
Qed.

(** What a query finds stays found after every sequence of requests: no
    request removes a document. *)
Lemma after_all_keeps_found reqs name field s : forall d,
  Mongo.find name field s d <> [] ->
  exists d', after_all validate_email Database_bool repr_compound reqs (Some d) = Some d'
             /\ Mongo.find name field s d' <> [].
Proof.
  induction reqs as [|req reqs IH]; intros d Hf; [cbn; eauto|].
  cbn [after_all fold_left].
  destruct (effect_keeps_found d _ name field s (after_effect req d) Hf) as (d1 & -> & Hf1).
  apply IH, Hf1.
Qed.

End HandlerFacts.

(* ===================================================================== *)
(** * Properties stated by the specification *)
(* ===================================================================== *)

(** C1: for every contact payload whose [player_slug] equals the path
    slug, once the write of the submission document has succeeded,
    [submit_contact] returns the acknowledgement [{"status": "ok"}], whether
    or not a player with that slug is stored and whatever the player's
    document holds; and in the request cycle the response is that
    acknowledgement for every environment and every behaviour of the
    network, that is, whatever the notification does afterwards. *)
Theorem submit_contact_acknowledges
    (validate_email : string -> option string) (repr_compound : value -> string)
    (slug : string) (payload : ContactSubmission.t) (tasks : list task) (now : string)
    (db : option database) (oid : string) (db' : option database) :
  ContactSubmission.player_slug payload = slug ->
  create_document (H := ContactSubmission_model validate_email)
    (collection_name (H := ContactSubmission_model validate_email) ContactSubmission.t)
    payload db = (Return oid, db') ->
  (exists tasks',
      submit_contact validate_email repr_compound slug payload tasks now db
      = (Return ([("status", VStr "ok")], tasks'), db'))
  /\ (forall env net, exists later,
        serve_submit_contact validate_email repr_compound env net slug payload now db
        = (Responded 200 (VDoc [("status", VStr "ok")]) :: later, db')).
Proof.
  intros Hs Hw. destruct db as [d|]; [|discriminate].
  unfold create_document in Hw.
  change (collection_name ContactSubmission.t) with "contactsubmission" in Hw.
  cbn [model_dump ContactSubmission_model] in Hw.
  assert (Hdb : db' = Some (snd (Mongo.insert_one "contactsubmission"
                                   (ContactSubmission.dump payload) d))).
  { destruct (Mongo.insert_one _ _ d) as [o d1]. injection Hw as _ <-. reflexivity. }
  subst db'. split.
  - rewrite (submit_contact_run validate_email repr_compound slug payload tasks now d Hs).
    eauto.
  - intros env net. unfold serve_submit_contact.
    rewrite (submit_contact_run validate_email repr_compound slug payload [] now d Hs).
    eauto.
Qed.

Lemma submit_contact_acknowledges_witness :
  (exists tasks',
      submit_contact accept_any no_repr "john-doe" scout_a [] "2024-05-01T12:00:00"
        (Some store_with_john)
      = (Return ([("status", VStr "ok")], tasks'),
         Some (snd (Mongo.insert_one "contactsubmission" (ContactSubmission.dump scout_a)
                      store_with_john))))
  /\ (forall env net, exists later,
        serve_submit_contact accept_any no_repr env net "john-doe" scout_a
          "2024-05-01T12:00:00" (Some store_with_john)
        = (Responded 200 (VDoc [("status", VStr "ok")]) :: later,
           Some (snd (Mongo.insert_one "contactsubmission" (ContactSubmission.dump scout_a)
                        store_with_john)))).
Proof.
  apply (submit_contact_acknowledges accept_any no_repr "john-doe" scout_a []
           "2024-05-01T12:00:00" (Some store_with_john) (Mongo.oid_str 1));
    reflexivity.
Defined.

(** C2, at a failing input: with a full mail configuration whose
    [SMTP_PORT] is not a number, [send_email_background] raises
    [ValueError] to its caller, for every network, recipient, subject and
    content.  The conversion of the port stands before the [try]. *)
Theorem send_email_background_raises
    (net : smtp_net) (to_email subject content : string) :
  send_email_background env_bad_port net to_email subject content
  = (Raise ValueError, []).
Proof. reflexivity. Qed.

(** C3: a testimonial or a contact payload whose [player_slug] differs
    from the path slug is refused with status 400, and the store after the
    call is the store before it. *)
Theorem slug_mismatch_rejected
    (validate_email : string -> option string) (repr_compound : value -> string)
    (slug : string) (db : option database) :
  (forall (t : Testimonial.t),
      Testimonial.player_slug t <> slug ->
      add_testimonial slug t db
      = (Raise (HTTPException 400 "player_slug mismatch"), db))
  /\ (forall (payload : ContactSubmission.t) (tasks : list task) (now : string),
      ContactSubmission.player_slug payload <> slug ->
      submit_contact validate_email repr_compound slug payload tasks now db
      = (Raise (HTTPException 400 "player_slug mismatch"), db)).
Proof.
  split.
  - intros t Hne. unfold add_testimonial. rewrite (neq_negb_eqb _ _ Hne). reflexivity.
  - intros payload tasks now Hne. unfold submit_contact.
    rewrite (neq_negb_eqb _ _ Hne). reflexivity.
Qed.

Lemma slug_mismatch_rejected_witness :
  add_testimonial "jane-roe" praise (Some store_with_john)
  = (Raise (HTTPException 400 "player_slug mismatch"), Some store_with_john)
  /\ submit_contact accept_any no_repr "jane-roe" scout_a [] "2024-05-01T12:00:00"
       (Some store_with_john)
     = (Raise (HTTPException 400 "player_slug mismatch"), Some store_with_john).
Proof.
  split.
  - apply (proj1 (slug_mismatch_rejected accept_any no_repr "jane-roe"
                    (Some store_with_john))).
    discriminate.
  - apply (proj2 (slug_mismatch_rejected accept_any no_repr "jane-roe"
                    (Some store_with_john))).
    discriminate.
Defined.

(** C4, at a failing input: with no mail host, user or password in the
    environment and an [SMTP_PORT] that is set but blank,
    [send_email_background] does not return: it raises [ValueError].  (It
    opens no connection either.) *)
Theorem send_email_background_unconfigured_raises
    (net : smtp_net) (to_email subject content : string) :
  getenv env_blank_port "SMTP_HOST" = None
  /\ getenv env_blank_port "SMTP_USER" = None
  /\ getenv env_blank_port "SMTP_PASS" = None
  /\ send_email_background env_blank_port net to_email subject content
     = (Raise ValueError, []).
Proof. repeat split; reflexivity. Qed.

(** C5: when the player is stored with a contact e-mail address, the
    handler only queues the sender with its arguments: its outcome carries
    the queue of this one task, the store holds the submission, and nothing
    was done on the network, to which the handler has no access.  In the
    request cycle the response comes first, the acknowledgement with
    status 200; then the sender runs on the queued arguments: all that it
    does on the network comes after the response, and so does its failure
    if it raises.  The response and the store after the cycle are the same
    for every environment and network, whatever the sender ends in. *)
Theorem notification_after_response
    (validate_email : string -> option string) (repr_compound : value -> string)
    (env : environ) (net : smtp_net) (slug : string) (payload : ContactSubmission.t)
    (now : string) (d : database) (p : document) (to_email : string) :
  ContactSubmission.player_slug payload = slug ->
  Mongo.find_one "player" "slug" slug d = Some p ->
  Doc.get_default "contact_email" p = VStr to_email ->
  to_email <> "" ->
  let d' := snd (Mongo.insert_one "contactsubmission" (ContactSubmission.dump payload) d) in
  let subject := "New Contact/Trial Request for "
                 ++ py_str repr_compound (Doc.get_default "name" p) in
  let content := contact_content payload now in
  let sent := send_email_background env net to_email subject content in
  submit_contact validate_email repr_compound slug payload [] now (Some d)
  = (Return ([("status", VStr "ok")], [Task (VStr to_email) subject content]), Some d')
  /\ serve_submit_contact validate_email repr_compound env net slug payload now (Some d)
     = (Responded 200 (VDoc [("status", VStr "ok")])
        :: (map Network (snd sent)
            ++ match fst sent with
               | Return _ => []
               | Raise e => [TaskRaised e]
               end)%list,
        Some d').
Proof.
  intros Hs Hp He Hne d' subject content sent.
  assert (Ht : Py.truthy (Doc.get_default "contact_email" p) = true).
  { rewrite He. destruct to_email; [congruence|reflexivity]. }
  assert (Hrun : submit_contact validate_email repr_compound slug payload [] now (Some d)
                 = (Return ([("status", VStr "ok")], [Task (VStr to_email) subject content]),
                    Some d')).
  { rewrite (submit_contact_run validate_email repr_compound slug payload [] now d Hs),
      Hp, Ht, (truthy_contact_email_doc p Ht), He. reflexivity. }
  split; [exact Hrun|]. unfold serve_submit_contact. rewrite Hrun.
  cbn [run_tasks task_to_email task_subject task_content]. fold sent.
  destruct sent as [[u|e] evs]; reflexivity.
Qed.

Lemma notification_after_response_witness :
  let d' := snd (Mongo.insert_one "contactsubmission" (ContactSubmission.dump scout_a)
                   store_with_john) in
  let subject := "New Contact/Trial Request for John Doe" in
  let content := contact_content scout_a "2024-05-01T12:00:00" in
  let sent := send_email_background env_configured net_ok "coach@example.com"
                subject content in
  submit_contact accept_any no_repr "john-doe" scout_a [] "2024-05-01T12:00:00"
    (Some store_with_john)
  = (Return ([("status", VStr "ok")], [Task (VStr "coach@example.com") subject content]),
     Some d')
  /\ serve_submit_contact accept_any no_repr env_configured net_ok "john-doe" scout_a
       "2024-05-01T12:00:00" (Some store_with_john)
     = (Responded 200 (VDoc [("status", VStr "ok")])
        :: (map Network (snd sent)
            ++ match fst sent with
               | Return _ => []
               | Raise e => [TaskRaised e]
               end)%list,
        Some d').
Proof.
  apply (notification_after_response accept_any no_repr env_configured net_ok "john-doe"
           scout_a "2024-05-01T12:00:00" store_with_john
           (("_id", VObjectId 0) :: Player.dump john_doe) "coach@example.com");
    [reflexivity|reflexivity|reflexivity|discriminate].
Defined.

(** The end-to-end scenario of the specification with a configured
    transport on which every step succeeds: the response comes first, then
    the session with the mail host. *)
Example contact_request_trace :
  fst (serve_submit_contact accept_any no_repr env_configured net_ok "john-doe" scout_a
         "2024-05-01T12:00:00" (Some store_with_john))
  = [Responded 200 (VDoc [("status", VStr "ok")]);
     Network (Connect "smtp.example.com" 587);
     Network StartTLS;
     Network (Login "mailer" "secret");
     Network (SendMail "mailer" ["coach@example.com"]
                {| payload := contact_content scout_a "2024-05-01T12:00:00";
                   subtype := "plain"; charset := "utf-8";
                   Subject := "New Contact/Trial Request for John Doe";
                   From := "mailer"; To := "coach@example.com" |});
     Network Quit].
Proof. reflexivity. Qed.

(** C6, at a failing input: the slug ["abc\n"] (a well-formed slug followed
    by a newline) is not made of lower-case alphanumeric segments joined
    by single dashes, yet [create_player] answers with the created profile
    and the player collection holds the document afterwards. *)
Theorem create_player_accepts_newline_slug :
  slug_wellformed (Player.slug newline_player) = false
  /\ create_player accept_any handle_true no_repr newline_player (Some Mongo.empty)
     = (Return newline_player,
        Some (snd (Mongo.insert_one "player" (Player.dump newline_player) Mongo.empty)))
  /\ Mongo.collection "player"
       (snd (Mongo.insert_one "player" (Player.dump newline_player) Mongo.empty))
     = [("_id", VObjectId 0) :: Player.dump newline_player].
Proof.
  split; [reflexivity|]. split; [|reflexivity].
  apply create_player_first; reflexivity.
Qed.

(** C7, at a failing input: on a driver whose open handle refuses the
    truth test ([Database.__bool__] of pymongo 4 raises
    [NotImplementedError]), the first creation of the profile [john_doe],
    whose slug ["john-doe"] is well formed and which no stored player has,
    does not succeed: it ends in that exception at [if db], which the
    framework answers with status 500, and it stores nothing, so that the
    player is not found afterwards and a second creation ends as the first
    did, not with status 409. *)
Theorem create_player_first_creation_fails :
  slug_wellformed (Player.slug john_doe) = true
  /\ Mongo.find "player" "slug" (Player.slug john_doe) Mongo.empty = []
  /\ create_player accept_any handle_raises no_repr john_doe (Some Mongo.empty)
     = (Raise NotImplementedError, Some Mongo.empty)
  /\ error_response NotImplementedError = Responded 500 (VStr "Internal Server Error")
  /\ fst (get_player accept_any "john-doe" (Some Mongo.empty))
     = Raise (HTTPException 404 "Player not found").
Proof. repeat split; reflexivity. Qed.

(** C8: the content of a queued notification is the fixed text with the
    fields name, role, club, e-mail, WhatsApp, country, message and the
    UTC time of submission, in this order, one per line, the message and
    the time set off by empty lines; an optional field that is present and
    not empty is shown as it is, an absent one as a dash. *)
Theorem notification_body_format
    (validate_email : string -> option string) (repr_compound : value -> string)
    (slug : string) (payload : ContactSubmission.t) (tasks : list task) (now : string)
    (db : option database) (body : document) (tasks' : list task)
    (db' : option database) :
  submit_contact validate_email repr_compound slug payload tasks now db
  = (Return (body, tasks'), db') ->
  (tasks' = tasks
   \/ exists to_email subject,
       tasks' = (tasks ++ [Task to_email subject
         ("Name: " ++ ContactSubmission.name payload ++ nl
          ++ "Role: " ++ ContactSubmission.role payload ++ nl
          ++ "Club: " ++ Py.or_str (ContactSubmission.club_name payload) "-" ++ nl
          ++ "Email: " ++ Py.or_str (ContactSubmission.email payload) "-" ++ nl
          ++ "WhatsApp: " ++ Py.or_str (ContactSubmission.whatsapp payload) "-" ++ nl
          ++ "Country: " ++ Py.or_str (ContactSubmission.country payload) "-" ++ nl
          ++ nl
          ++ "Message:" ++ nl ++ Py.or_str (ContactSubmission.message payload) "-" ++ nl
          ++ nl
          ++ "Submitted at: " ++ now ++ " UTC")])%list)
  /\ (forall s, s <> "" -> Py.or_str (Some s) "-" = s)
  /\ Py.or_str None "-" = "-".
Proof.
  intros H. split; [|split; [|reflexivity]].
  - destruct (String.eqb_spec (ContactSubmission.player_slug payload) slug) as [Hs|Hne].
    + destruct db as [d|].
      * rewrite (submit_contact_run validate_email repr_compound slug payload tasks now d Hs)
          in H.
        injection H as _ <- _.
        destruct (Mongo.find_one "player" "slug" slug d) as [p|]; [|left; reflexivity].
        destruct (_ && _); [|left; reflexivity].
        right. eexists _, _. unfold add_task. rewrite contact_content_format. reflexivity.
      * unfold submit_contact in H. rewrite Hs, String.eqb_refl in H. discriminate.
    + unfold submit_contact in H. apply String.eqb_neq in Hne. rewrite Hne in H.
      discriminate.
  - intros s Hs. destruct s; [congruence|reflexivity].
Qed.

Lemma notification_body_format_witness :
  ([Task (VStr "coach@example.com") "New Contact/Trial Request for John Doe"
      (contact_content scout_a "2024-05-01T12:00:00")] = []
   \/ exists to_email subject,
       [Task (VStr "coach@example.com") "New Contact/Trial Request for John Doe"
          (contact_content scout_a "2024-05-01T12:00:00")]
       = ([] ++ [Task to_email subject
         ("Name: " ++ "Scout A" ++ nl
          ++ "Role: " ++ "scout" ++ nl
          ++ "Club: " ++ Py.or_str None "-" ++ nl
          ++ "Email: " ++ Py.or_str None "-" ++ nl
          ++ "WhatsApp: " ++ Py.or_str None "-" ++ nl
          ++ "Country: " ++ Py.or_str None "-" ++ nl
          ++ nl
          ++ "Message:" ++ nl ++ Py.or_str (Some "Interested") "-" ++ nl
          ++ nl
          ++ "Submitted at: " ++ "2024-05-01T12:00:00" ++ " UTC")])%list)
  /\ (forall s, s <> "" -> Py.or_str (Some s) "-" = s)
  /\ Py.or_str None "-" = "-".
Proof.
  apply (notification_body_format accept_any no_repr "john-doe" scout_a []
           "2024-05-01T12:00:00" (Some store_with_john) [("status", VStr "ok")]
           [Task (VStr "coach@example.com") "New Contact/Trial Request for John Doe"
              (contact_content scout_a "2024-05-01T12:00:00")]
           (Some (snd (Mongo.insert_one "contactsubmission"
                         (ContactSubmission.dump scout_a) store_with_john)))).
  reflexivity.
Defined.

(** C9: [get_player] is read-only and repeatable: a call leaves the store
    as it is, and any number of calls in a row, with nothing written in
    between, give the response of the first call every time. *)
Theorem get_player_idempotent
    (validate_email : string -> option string) (slug : string) (db : option database)
    (n : nat) :
  snd (get_player validate_email slug db) = db
  /\ get_player_times validate_email n slug db
     = (repeat (fst (get_player validate_email slug db)) n, db).
Proof.
  split; [apply get_player_state|].
  induction n as [|n IH]; [reflexivity|].
  cbn [get_player_times repeat].
  pose proof (get_player_state validate_email slug db) as Hs.
  destruct (get_player validate_email slug db) as [r db1] eqn:E.
  cbn [snd] in Hs. subst db1. rewrite IH. reflexivity.
Qed.

(** C10: on an open store whose testimonial documents validate,
    [list_testimonials] succeeds for every slug: it returns the stored
    testimonials whose [player_slug] is the path slug, in the order of the
    collection, and the empty list when there is none; no player is looked
    up, and the store is left as it is. *)
Theorem list_testimonials_total (slug : string) (d : database) :
  testimonials_valid d ->
  exists all,
    mapM (fun doc => Testimonial.validate (Doc.pop "_id" doc))
         (Mongo.collection "testimonial" d) = Some all
    /\ list_testimonials slug (Some d)
       = (Return (List.filter (fun t => String.eqb (Testimonial.player_slug t) slug) all),
          Some d)
    /\ (Mongo.find "testimonial" "player_slug" slug d = [] ->
        list_testimonials slug (Some d) = (Return [], Some d)).
Proof.
  intros Hv.
  destruct (mapM (fun doc => Testimonial.validate (Doc.pop "_id" doc))
                 (Mongo.collection "testimonial" d)) as [all|] eqn:E.
  - exists all. split; [reflexivity|].
    unfold list_testimonials, bind, db_find, lift.
    change (collection_name Testimonial.t) with "testimonial". unfold Mongo.find.
    split.
    + rewrite (testimonials_loop_filter slug _ all [] E). reflexivity.
    + intros ->. reflexivity.
  - exfalso.
    apply (mapM_is_Some_2 (fun doc => Testimonial.validate (Doc.pop "_id" doc))) in Hv.
    rewrite E in Hv. destruct Hv as [? ?]. discriminate.
Qed.

Lemma list_testimonials_total_witness :
  exists all,
    mapM (fun doc => Testimonial.validate (Doc.pop "_id" doc))
         (Mongo.collection "testimonial" store_with_praise) = Some all
    /\ list_testimonials "john-doe" (Some store_with_praise)
       = (Return (List.filter (fun t => String.eqb (Testimonial.player_slug t) "john-doe") all),
          Some store_with_praise)
    /\ (Mongo.find "testimonial" "player_slug" "john-doe" store_with_praise = [] ->
        list_testimonials "john-doe" (Some store_with_praise)
        = (Return [], Some store_with_praise)).
Proof.
  apply (list_testimonials_total "john-doe" store_with_praise).
  unfold testimonials_valid.
  let docs := eval vm_compute in (Mongo.collection "testimonial" store_with_praise) in
  change (Mongo.collection "testimonial" store_with_praise) with docs.
  constructor; [|constructor]. exists praise. reflexivity.
Defined.

(* ===================================================================== *)
(** * Further properties *)
(* ===================================================================== *)

(** Every slug that is well formed in the words of the specification is
    accepted by [slug_regex.match]. *)
Lemma slug_wellformed_accepted s :
  slug_wellformed s = true -> slug_regex_match s = true.
Proof.
  intros H. unfold slug_regex_match, Re.match_dollar.
  rewrite accepts_slug_wellformed, H. reflexivity.
Qed.

Lemma slug_wellformed_accepted_witness : slug_regex_match "john-doe" = true.
Proof. apply (slug_wellformed_accepted "john-doe"). reflexivity. Defined.

Lemma create_player_invalid_slug_witness :
  create_player accept_any handle_true no_repr
    {| Player.slug := "John_Doe"; Player.name := "John Doe"; Player.position := "Forward";
       Player.age := None; Player.country := None; Player.current_club := None;
       Player.league := None; Player.photo_url := None; Player.highlight_title := None;
       Player.highlight_url := None; Player.highlight_description := None;
       Player.height_cm := None; Player.weight_kg := None; Player.dominant_foot := None;
       Player.main_position := None; Player.secondary_positions := None;
       Player.past_clubs := None; Player.bio := None; Player.links := None;
       Player.stats := None; Player.contact_email := None |}
    (Some store_with_john)
  = (Raise (HTTPException 400 "Invalid slug. Use lowercase letters, numbers and dashes."),
     Some store_with_john).
Proof. apply create_player_invalid_slug. reflexivity. Defined.

Lemma create_player_truth_test_raises_witness :
  create_player accept_any (Raise NotImplementedError) no_repr john_doe (Some Mongo.empty)
  = (Raise NotImplementedError, Some Mongo.empty).
Proof. apply create_player_truth_test_raises; reflexivity. Defined.

Lemma send_email_background_unconfigured_witness :
  snd (send_email_background env_blank_port net_ok "coach@example.com" "subject" "content")
  = [].
Proof. apply send_email_background_unconfigured. reflexivity. Defined.

Lemma get_player_after_create_witness :
  get_player accept_any "john-doe" (Some store_with_john)
  = (Return john_doe, Some store_with_john).
Proof. apply (get_player_after_create accept_any john_doe Mongo.empty); reflexivity. Defined.

Lemma after_all_keeps_valid_witness :
  exists d',
    after_all accept_any handle_true no_repr
      [PostPlayer john_doe; PostTestimonial "john-doe" praise;
       PostContact "john-doe" scout_a "2024-05-01T12:00:00"; GetTestimonials "john-doe"]
      (Some Mongo.empty) = Some d'
    /\ testimonials_valid d'.
Proof. apply after_all_keeps_valid. constructor. Defined.

(* ===================================================================== *)
(** * Properties of the handlers beyond the specification *)
(* ===================================================================== *)

Lemma matches_nonempty field s doc : Mongo.matches field s doc = true -> doc <> [].
Proof. intros H ->. discriminate. Qed.

Lemma find_head_matches name field s d doc :
  Mongo.find_one name field s d = Some doc -> Mongo.matches field s doc = true.
Proof.
  unfold Mongo.find_one, Mongo.find. intros H.
  destruct (List.filter _ _) as [|x l] eqn:E; [discriminate|]. injection H as ->.
  assert (Hin : In doc (List.filter (Mongo.matches field s) (Mongo.collection name d)))
    by (rewrite E; left; reflexivity).
  apply List.filter_In in Hin. tauto.
Qed.

Lemma effect_collection d db' name :
  effect d db' -> exists d' more, db' = Some d' /\ Mongo.collection name d' = (Mongo.collection name d ++ more)%list.
Proof.
  intros [|name' doc _].
  - exists d, []. rewrite app_nil_r. auto.
  - destruct (String.eqb_spec name' name) as [->|Hne].
    + eexists _, _. split; [reflexivity|]. apply collection_insert_same.
    + eexists _, []. split; [reflexivity|]. rewrite app_nil_r. apply collection_insert_other, Hne.
Qed.

Lemma find_one_app_collection name field s d d' more :
  Mongo.collection name d' = (Mongo.collection name d ++ more)%list ->
  Mongo.find name field s d <> [] ->
  Mongo.find_one name field s d' = Mongo.find_one name field s d /\ Mongo.find name field s d' <> [].
Proof.
  intros Hc Hf. unfold Mongo.find_one, Mongo.find in *. rewrite Hc, List.filter_app.
  destruct (List.filter _ (Mongo.collection name d)); [congruence|]. split; [reflexivity|discriminate].
Qed.

Section StoreHistory.
Context (validate_email : string -> option string) (Database_bool : pyresult bool) (repr_compound : value -> string).

Lemma get_player_by_find_one slug d :
  get_player validate_email slug (Some d)
  = (match Mongo.find_one "player" "slug" slug d with
     | None => Raise (HTTPException 404 "Player not found")
     | Some doc => construct (H := Player_model validate_email) (Doc.pop "_id" doc)
     end, Some d).
Proof.
  unfold get_player, bind, db_find_one, raise, lift. change (collection_name Player.t) with "player".
  destruct (Mongo.find_one "player" "slug" slug d) as [doc|] eqn:E; [|reflexivity].
  apply find_head_matches, matches_nonempty in E. destruct doc; [congruence|reflexivity].
Qed.

(** On an open store [get_player] answers 404 exactly when no document of
    the player collection matches the slug; a match that does not validate
    is a validation error, not a 404. *)
Theorem get_player_not_found_iff slug d :
  fst (get_player validate_email slug (Some d)) = Raise (HTTPException 404 "Player not found")
  <-> Mongo.find "player" "slug" slug d = [].
Proof.
  rewrite get_player_by_find_one. cbn [fst]. unfold Mongo.find_one.
  destruct (Mongo.find "player" "slug" slug d) as [|doc docs]; cbn [head].
  - tauto.
  - split; [|discriminate]. unfold construct.
    destruct (model_validate _); discriminate.
Qed.

(** A profile that is stored stays what [get_player] returns: after every
    sequence of requests the response for its slug is the response before
    them.  No request updates or removes a player, and a later document
    with the same slug never comes first. *)
Theorem player_immutable reqs slug : forall d,
  Mongo.find "player" "slug" slug d <> [] ->
  exists d', after_all validate_email Database_bool repr_compound reqs (Some d) = Some d'
    /\ get_player validate_email slug (Some d')
       = (fst (get_player validate_email slug (Some d)), Some d').
Proof.
  induction reqs as [|req reqs IH]; intros d Hf.
  - exists d. split; [reflexivity|]. rewrite get_player_by_find_one. reflexivity.
  - cbn [after_all fold_left].
    destruct (effect_collection d _ "player" (after_effect validate_email Database_bool repr_compound req d))
      as (d1 & more & Hd1 & Hc).
    rewrite Hd1. destruct (find_one_app_collection "player" "slug" slug d d1 more Hc Hf) as [H1 Hf1].
    destruct (IH d1 Hf1) as (d' & Hd' & Hg). exists d'. split; [exact Hd'|].
    rewrite Hg. rewrite !get_player_by_find_one. cbn [fst]. rewrite H1. reflexivity.
Qed.

(** Every collection only grows: after every sequence of requests each
    collection is what it was, followed by the documents inserted since. *)
Theorem store_append_only reqs name : forall d,
  exists d' more, after_all validate_email Database_bool repr_compound reqs (Some d) = Some d'
    /\ Mongo.collection name d' = (Mongo.collection name d ++ more)%list.
Proof.
  induction reqs as [|req reqs IH]; intros d.
  - exists d, []. rewrite app_nil_r. auto.
  - cbn [after_all fold_left].
    destruct (effect_collection d _ name (after_effect validate_email Database_bool repr_compound req d))
      as (d1 & more1 & Hd1 & Hc1).
    rewrite Hd1. destruct (IH d1) as (d' & more & Hd' & Hc).
    exists d', (more1 ++ more)%list. split; [exact Hd'|]. rewrite Hc, Hc1, app_assoc. reflexivity.
Qed.
End StoreHistory.

Section Independence.
Context (validate_email : string -> option string) (Database_bool : pyresult bool) (repr_compound : value -> string).

Lemma create_player_state p d :
  snd (create_player validate_email Database_bool repr_compound p (Some d)) = Some d
  \/ snd (create_player validate_email Database_bool repr_compound p (Some d))
     = Some (snd (Mongo.insert_one "player" (Player.dump p) d)).
Proof.
  remember (snd (create_player validate_email Database_bool repr_compound p (Some d)))
    as x eqn:Hx.
  unfold create_player in Hx. destruct (negb _); [left; exact Hx|].
  unfold bind at 1 in Hx. unfold bind at 1 in Hx. unfold db_bool in Hx.
  destruct Database_bool as [[|]|e]; [| |left; exact Hx].
  - unfold bind at 1 in Hx. unfold db_find, ret in Hx.
    destruct (truthy_list _); [left; exact Hx|]. right.
    unfold bind, create_document in Hx. change (collection_name Player.t) with "player" in Hx.
    cbn [model_dump Player_model] in Hx.
    destruct (Mongo.insert_one "player" _ d) as [oid d'] eqn:E.
    unfold db_find_one, lift in Hx.
    destruct (stringify_id _ _) as [created|e]; exact Hx.
  - right. unfold ret in Hx. cbn [truthy_list] in Hx.
    unfold bind, create_document in Hx. change (collection_name Player.t) with "player" in Hx.
    cbn [model_dump Player_model] in Hx.
    destruct (Mongo.insert_one "player" _ d) as [oid d'] eqn:E.
    unfold db_find_one, lift in Hx.
    destruct (stringify_id _ _) as [created|e]; exact Hx.
Qed.

Lemma add_testimonial_state slug t d :
  snd (add_testimonial slug t (Some d)) = Some d
  \/ snd (add_testimonial slug t (Some d))
     = Some (snd (Mongo.insert_one "testimonial" (Testimonial.dump t) d)).
Proof.
  unfold add_testimonial. destruct (negb _); [left; reflexivity|]. right.
  unfold bind, create_document, ret. change (collection_name Testimonial.t) with "testimonial".
  cbn [model_dump Testimonial_model].
  destruct (Mongo.insert_one _ _ d) as [oid d'] eqn:E. reflexivity.
Qed.

Lemma submit_contact_state slug payload tasks now d :
  snd (submit_contact validate_email repr_compound slug payload tasks now (Some d)) = Some d
  \/ snd (submit_contact validate_email repr_compound slug payload tasks now (Some d))
     = Some (snd (Mongo.insert_one "contactsubmission" (ContactSubmission.dump payload) d)).
Proof.
  destruct (String.eqb_spec (ContactSubmission.player_slug payload) slug) as [Hs|Hne].
  - right. rewrite (submit_contact_run validate_email repr_compound slug payload tasks now d Hs).
    reflexivity.
  - left. unfold submit_contact. apply String.eqb_neq in Hne. rewrite Hne. reflexivity.
Qed.

Lemma get_player_same_collection slug d d' :
  Mongo.collection "player" d' = Mongo.collection "player" d ->
  fst (get_player validate_email slug (Some d')) = fst (get_player validate_email slug (Some d)).
Proof.
  intros H. rewrite !get_player_by_find_one. cbn [fst].
  unfold Mongo.find_one, Mongo.find. rewrite H. reflexivity.
Qed.

Lemma list_testimonials_same_collection slug d d' :
  Mongo.collection "testimonial" d' = Mongo.collection "testimonial" d ->
  fst (list_testimonials slug (Some d')) = fst (list_testimonials slug (Some d)).
Proof.
  intros H. unfold list_testimonials, bind, db_find, lift.
  change (collection_name Testimonial.t) with "testimonial".
  unfold Mongo.find. rewrite H. reflexivity.
Qed.

(** The three collections are apart: posting a testimonial or a contact
    request changes no response of [get_player], and creating a player or
    posting a contact request changes no response of [list_testimonials]. *)
Theorem reads_independent_of_other_writes slug d :
  (forall s t d', snd (add_testimonial s t (Some d)) = Some d' ->
      fst (get_player validate_email slug (Some d'))
      = fst (get_player validate_email slug (Some d)))
  /\ (forall s payload tasks now d',
      snd (submit_contact validate_email repr_compound s payload tasks now (Some d)) = Some d' ->
      fst (get_player validate_email slug (Some d'))
      = fst (get_player validate_email slug (Some d))
      /\ fst (list_testimonials slug (Some d')) = fst (list_testimonials slug (Some d)))
  /\ (forall p d',
      snd (create_player validate_email Database_bool repr_compound p (Some d)) = Some d' ->
      fst (list_testimonials slug (Some d')) = fst (list_testimonials slug (Some d))).
Proof.
  split; [|split].
  - intros s t d' H. apply get_player_same_collection.
    destruct (add_testimonial_state s t d) as [E|E]; rewrite E in H; injection H as <-;
      [reflexivity|apply collection_insert_other; discriminate].
  - intros s body tasks now d' H.
    assert (Hc : forall name, name <> "contactsubmission" ->
                   Mongo.collection name d' = Mongo.collection name d).
    { intros name Hne.
      destruct (submit_contact_state s body tasks now d) as [E|E]; rewrite E in H;
        injection H as <-; [reflexivity|apply collection_insert_other; congruence]. }
    split.
    + apply get_player_same_collection, Hc. discriminate.
    + apply list_testimonials_same_collection, Hc. discriminate.
  - intros p d' H. apply list_testimonials_same_collection.
    destruct (create_player_state p d) as [E|E]; rewrite E in H; injection H as <-;
      [reflexivity|apply collection_insert_other; discriminate].
Qed.
End Independence.


Lemma mapM_app_Some {A B} (f : A -> option B) l1 l2 k1 k2 :
  mapM f l1 = Some k1 -> mapM f l2 = Some k2 -> mapM f (l1 ++ l2)%list = Some (k1 ++ k2)%list.
Proof.
  rewrite !mapM_Some. apply Forall2_app.
Qed.

Lemma mapM_singleton {A B} (f : A -> option B) x y :
  f x = Some y -> mapM f [x] = Some [y].
Proof. intros H. cbn. rewrite H. reflexivity. Qed.

Lemma read_inserted_testimonial oid t :
  mapM read_testimonial [("_id", VObjectId oid) :: Testimonial.dump t] = Some [t].
Proof.
  apply mapM_singleton.
  change (Doc.pop "_id" (("_id", VObjectId oid) :: Testimonial.dump t))
    with (Testimonial.dump t).
  apply Testimonial_roundtrip.
Qed.

Lemma testimonials_valid_all d :
  testimonials_valid d -> exists all, mapM read_testimonial (Mongo.collection "testimonial" d) = Some all.
Proof.
  intros Hv. apply (mapM_is_Some_2 read_testimonial) in Hv. destruct Hv as [all E]. eauto.
Qed.

Lemma list_testimonials_all slug d all :
  mapM read_testimonial (Mongo.collection "testimonial" d) = Some all ->
  list_testimonials slug (Some d)
  = (Return (List.filter (fun t => String.eqb (Testimonial.player_slug t) slug) all), Some d).
Proof.
  intros E. unfold list_testimonials, bind, db_find, lift.
  change (collection_name Testimonial.t) with "testimonial". unfold Mongo.find.
  rewrite (testimonials_loop_filter slug _ all [] E). reflexivity.
Qed.

(** Posting a testimonial under its own slug echoes it and appends it to
    what [list_testimonials] returns for that slug; the lists of the other
    slugs stay as they are.  No player needs to exist. *)
Theorem add_testimonial_then_list slug t d :
  testimonials_valid d ->
  Testimonial.player_slug t = slug ->
  let d1 := snd (Mongo.insert_one "testimonial" (Testimonial.dump t) d) in
  add_testimonial slug t (Some d) = (Return t, Some d1)
  /\ forall slug', exists before,
       list_testimonials slug' (Some d) = (Return before, Some d)
       /\ list_testimonials slug' (Some d1)
          = (Return (before ++ (if String.eqb slug' slug then [t] else []))%list, Some d1).
Proof.
  intros Hv Hs d1. split.
  - unfold add_testimonial. rewrite Hs, String.eqb_refl. cbn [negb].
    unfold bind, create_document, ret. change (collection_name Testimonial.t) with "testimonial".
    cbn [model_dump Testimonial_model].
    subst d1. destruct (Mongo.insert_one _ _ d) as [oid d'] eqn:E. reflexivity.
  - intros slug'. destruct (testimonials_valid_all d Hv) as [all E].
    eexists. split; [apply (list_testimonials_all slug' d all E)|].
    assert (E1 : mapM read_testimonial (Mongo.collection "testimonial" d1) = Some (all ++ [t])%list).
    { unfold d1. rewrite collection_insert_same.
      apply mapM_app_Some; [exact E|apply read_inserted_testimonial]. }
    rewrite (list_testimonials_all slug' d1 _ E1), List.filter_app. cbn [List.filter].
    rewrite Hs, (String.eqb_sym slug slug'). destruct (String.eqb slug' slug); reflexivity.
Qed.

Section TestimonialHistory.
Context (validate_email : string -> option string) (Database_bool : pyresult bool) (repr_compound : value -> string).

Lemma effect_testimonials d db' all :
  effect d db' ->
  mapM read_testimonial (Mongo.collection "testimonial" d) = Some all ->
  exists d' extra, db' = Some d'
    /\ mapM read_testimonial (Mongo.collection "testimonial" d') = Some (all ++ extra)%list.
Proof.
  intros [|name doc Hdoc] E.
  - exists d, []. rewrite app_nil_r. auto.
  - destruct (String.eqb_spec name "testimonial") as [->|Hne].
    + destruct (Hdoc eq_refl) as [t ->]. eexists _, [t]. split; [reflexivity|].
      rewrite collection_insert_same.
      apply mapM_app_Some; [exact E|apply read_inserted_testimonial].
    + eexists _, []. split; [reflexivity|]. rewrite app_nil_r.
      rewrite collection_insert_other by exact Hne. exact E.
Qed.

(** After every sequence of requests [list_testimonials] returns what it
    returned before, followed by the testimonials posted since. *)
Theorem testimonials_only_grow reqs slug : forall d,
  testimonials_valid d ->
  exists d' before more,
    after_all validate_email Database_bool repr_compound reqs (Some d) = Some d'
    /\ list_testimonials slug (Some d) = (Return before, Some d)
    /\ list_testimonials slug (Some d') = (Return (before ++ more)%list, Some d').
Proof.
  intros d Hv. destruct (testimonials_valid_all d Hv) as [all E].
  assert (H : exists d' extra,
             after_all validate_email Database_bool repr_compound reqs (Some d) = Some d'
             /\ mapM read_testimonial (Mongo.collection "testimonial" d') = Some (all ++ extra)%list).
  { clear Hv. revert d all E. induction reqs as [|req reqs IH]; intros d all E.
    - exists d, []. rewrite app_nil_r. auto.
    - cbn [after_all fold_left].
      destruct (effect_testimonials d _ all
                  (after_effect validate_email Database_bool repr_compound req d) E)
        as (d1 & extra1 & Hd1 & E1).
      rewrite Hd1. destruct (IH d1 _ E1) as (d' & extra & Hd' & E').
      exists d', (extra1 ++ extra)%list. split; [exact Hd'|]. rewrite app_assoc. exact E'. }
  destruct H as (d' & extra & Hd' & E').
  eexists d', _, _. split; [exact Hd'|].
  split; [apply (list_testimonials_all slug d all E)|].
  rewrite (list_testimonials_all slug d' _ E'), List.filter_app. reflexivity.
Qed.
End TestimonialHistory.

Lemma ContactSubmission_roundtrip ve x :
  contact_validated ve x -> ContactSubmission.validate ve (ContactSubmission.dump x) = Some x.
Proof.
  destruct x. unfold contact_validated, ContactSubmission.validate, ContactSubmission.dump.
  cbn [ContactSubmission.player_slug ContactSubmission.name ContactSubmission.role
       ContactSubmission.club_name ContactSubmission.email ContactSubmission.whatsapp
       ContactSubmission.country ContactSubmission.message].
  intros Hv.
  rewrite (required_str_dump "player_slug" _ player_slug) by reflexivity.
  rewrite (required_str_dump "name" _ name) by reflexivity.
  rewrite (required_str_dump "role" _ role) by reflexivity.
  rewrite (optional_str_dump "club_name" _ _ club_name) by reflexivity.
  rewrite (optional_email_dump ve "email" _ _ email) by first [exact Hv | reflexivity].
  rewrite (optional_str_dump "whatsapp" _ _ whatsapp) by reflexivity.
  rewrite (optional_str_dump "country" _ _ country) by reflexivity.
  rewrite (optional_str_dump "message" _ _ message) by reflexivity.
  reflexivity.
Qed.

(** Serialising an instance of a model and validating the document gives
    the instance back, for the five models the handlers store or nest. *)
Theorem models_roundtrip ve :
  (forall x : LinkItem.t, model_validate (model_dump x) = Some x)
  /\ (forall x : SeasonStats.t, model_validate (model_dump x) = Some x)
  /\ (forall x : Testimonial.t, model_validate (model_dump x) = Some x)
  /\ (forall x : Player.t, Player.validated ve x ->
        Player.validate ve (Player.dump x) = Some x)
  /\ (forall x : ContactSubmission.t, contact_validated ve x ->
        ContactSubmission.validate ve (ContactSubmission.dump x) = Some x).
Proof.
  repeat split.
  - apply LinkItem_roundtrip.
  - apply SeasonStats_roundtrip.
  - apply Testimonial_roundtrip.
  - apply Player_roundtrip.
  - apply ContactSubmission_roundtrip.
Qed.

Section ContactFacts.
Context (validate_email : string -> option string) (Database_bool : pyresult bool) (repr_compound : value -> string).

(** An accepted contact request is stored: its document, under a fresh
    id, is the last one of the contact collection, it validates back to the
    payload, and the other collections are untouched. *)
Theorem submit_contact_persists slug payload tasks now d :
  ContactSubmission.player_slug payload = slug ->
  contact_validated validate_email payload ->
  exists d',
    snd (submit_contact validate_email repr_compound slug payload tasks now (Some d)) = Some d'
    /\ Mongo.collection "contactsubmission" d'
       = (Mongo.collection "contactsubmission" d
          ++ [("_id", VObjectId (next_oid d)) :: ContactSubmission.dump payload])%list
    /\ ContactSubmission.validate validate_email
         (Doc.pop "_id" (("_id", VObjectId (next_oid d)) :: ContactSubmission.dump payload))
       = Some payload
    /\ forall name, name <> "contactsubmission" ->
         Mongo.collection name d' = Mongo.collection name d.
Proof.
  intros Hs Hv. eexists. split.
  - rewrite (submit_contact_run validate_email repr_compound slug payload tasks now d Hs).
    reflexivity.
  - split; [apply collection_insert_same|]. split.
    + change (Doc.pop "_id" (("_id", VObjectId (next_oid d)) :: ContactSubmission.dump payload))
        with (ContactSubmission.dump payload).
      apply ContactSubmission_roundtrip, Hv.
    + intros name Hne. apply collection_insert_other. congruence.
Qed.

(** Without a stored player for the slug, or when the first such player
    has no contact e-mail (missing, [None] or empty), the request is still
    acknowledged and stored, nothing is queued, and the request cycle ends
    with the response. *)
Theorem no_notification_without_contact_email slug payload tasks now d :
  ContactSubmission.player_slug payload = slug ->
  (forall p, Mongo.find_one "player" "slug" slug d = Some p ->
             Py.truthy (Doc.get_default "contact_email" p) = false) ->
  submit_contact validate_email repr_compound slug payload tasks now (Some d)
  = (Return ([("status", VStr "ok")], tasks),
     Some (snd (Mongo.insert_one "contactsubmission" (ContactSubmission.dump payload) d)))
  /\ forall env net,
       fst (serve_submit_contact validate_email repr_compound env net slug payload now (Some d))
       = [Responded 200 (VDoc [("status", VStr "ok")])].
Proof.
  intros Hs Hp.
  assert (Hq : forall tasks,
    submit_contact validate_email repr_compound slug payload tasks now (Some d)
    = (Return ([("status", VStr "ok")], tasks),
       Some (snd (Mongo.insert_one "contactsubmission" (ContactSubmission.dump payload) d)))).
  { intros ts. rewrite (submit_contact_run validate_email repr_compound slug payload ts now d Hs).
    destruct (Mongo.find_one "player" "slug" slug d) as [p|]; [|reflexivity].
    rewrite (Hp p eq_refl), andb_false_r. reflexivity. }
  split; [apply Hq|]. intros env net. unfold serve_submit_contact. rewrite Hq. reflexivity.
Qed.

(** Two profiles with different accepted slugs, both new to the store,
    are created one after the other, and afterwards each slug retrieves its
    own profile. *)
Theorem create_two_players p1 p2 d :
  Database_bool = Return true ->
  slug_regex_match (Player.slug p1) = true -> slug_regex_match (Player.slug p2) = true ->
  Player.validated validate_email p1 -> Player.validated validate_email p2 ->
  Player.slug p1 <> Player.slug p2 ->
  Mongo.find "player" "slug" (Player.slug p1) d = [] ->
  Mongo.find "player" "slug" (Player.slug p2) d = [] ->
  let d1 := snd (Mongo.insert_one "player" (Player.dump p1) d) in
  let d2 := snd (Mongo.insert_one "player" (Player.dump p2) d1) in
  create_player validate_email Database_bool repr_compound p1 (Some d) = (Return p1, Some d1)
  /\ create_player validate_email Database_bool repr_compound p2 (Some d1) = (Return p2, Some d2)
  /\ get_player validate_email (Player.slug p1) (Some d2) = (Return p1, Some d2)
  /\ get_player validate_email (Player.slug p2) (Some d2) = (Return p2, Some d2).
Proof.
  intros Hb Hs1 Hs2 Hv1 Hv2 Hne Hf1 Hf2 d1 d2.
  assert (Hm12 : forall oid, Mongo.matches "slug" (Player.slug p2)
                   (("_id", VObjectId oid) :: Player.dump p1) = false).
  { intros oid. unfold Mongo.matches. cbn. apply String.eqb_neq, Hne. }
  assert (Hm21 : forall oid, Mongo.matches "slug" (Player.slug p1)
                   (("_id", VObjectId oid) :: Player.dump p2) = false).
  { intros oid. unfold Mongo.matches. cbn. apply String.eqb_neq. congruence. }
  assert (Hf2' : Mongo.find "player" "slug" (Player.slug p2) d1 = []).
  { unfold d1. rewrite find_insert_same, Hf2, Hm12. reflexivity. }
  split; [apply create_player_first; assumption|].
  split; [apply create_player_first; assumption|].
  split.
  - rewrite get_player_by_find_one. unfold Mongo.find_one, d2.
    rewrite find_insert_same, Hm21, app_nil_r. unfold d1.
    rewrite find_insert_same, Hf1, Player_dump_slug_matches. cbn [app head].
    change (Doc.pop "_id" (("_id", VObjectId (next_oid d)) :: Player.dump p1))
      with (Player.dump p1).
    unfold construct. cbn [model_validate Player_model].
    rewrite (Player_roundtrip validate_email p1 Hv1). reflexivity.
  - rewrite get_player_by_find_one. unfold Mongo.find_one, d2.
    rewrite find_insert_same, Hf2', Player_dump_slug_matches. cbn [app head].
    change (Doc.pop "_id" (("_id", VObjectId (next_oid d1)) :: Player.dump p2))
      with (Player.dump p2).
    unfold construct. cbn [model_validate Player_model].
    rewrite (Player_roundtrip validate_email p2 Hv2). reflexivity.
Qed.
End ContactFacts.

Section CreationFacts.
Context (validate_email : string -> option string) (Database_bool : pyresult bool) (repr_compound : value -> string).

(** With an open handle that is true, [create_player] returns a profile
    only if [slug_regex] accepts the slug and no player with it was stored;
    then exactly the profile's document was inserted and the response is
    what validation makes of it. *)
Theorem create_player_success_inv p d x db' :
  Database_bool = Return true ->
  create_player validate_email Database_bool repr_compound p (Some d) = (Return x, db') ->
  slug_regex_match (Player.slug p) = true
  /\ Mongo.find "player" "slug" (Player.slug p) d = []
  /\ db' = Some (snd (Mongo.insert_one "player" (Player.dump p) d))
  /\ Player.validate validate_email (Player.dump p) = Some x.
Proof.
  intros Hb. unfold create_player.
  destruct (slug_regex_match (Player.slug p)) eqn:Hs; cbn [negb]; [|discriminate].
  unfold bind at 1. unfold bind at 1. unfold db_bool. rewrite Hb.
  unfold bind at 1. unfold db_find, ret. change (collection_name Player.t) with "player".
  destruct (Mongo.find "player" "slug" (Player.slug p) d) as [|doc docs] eqn:Hf;
    cbn [Mongo.limit take truthy_list]; [|discriminate].
  unfold bind, create_document, db_find_one, lift.
  cbn [model_dump Player_model].
  destruct (Mongo.insert_one "player" (Player.dump p) d) as [oid d'] eqn:E.
  assert (d' = snd (Mongo.insert_one "player" (Player.dump p) d)) as Hd'
    by (rewrite E; reflexivity).
  assert (oid = next_oid d) as ->
    by (unfold Mongo.insert_one in E; inversion E; reflexivity).
  unfold Mongo.find_one. rewrite Hd', find_insert_same, Hf, Player_dump_slug_matches.
  cbn [app head stringify_id Doc.get String.eqb Ascii.eqb Bool.eqb Doc.set Doc.pop].
  change (Doc.pop "_id" (Player.dump p)) with (Player.dump p).
  unfold construct. cbn [model_validate Player_model].
  destruct (Player.validate validate_email (Player.dump p)) as [y|]; [|discriminate].
  intros H. injection H as <- <-. repeat split; try reflexivity.
Qed.
End CreationFacts.

Lemma bind_Some_inv {A B} (m : option A) (k : A -> option B) y :
  (x ← m; k x) = Some y -> exists x, m = Some x /\ k x = Some y.
Proof. destruct m as [x|]; [eauto|discriminate]. Qed.

Lemma required_str_Some k d s :
  Field.required_str k d = Some s -> Doc.get k d = Some (VStr s).
Proof.
  unfold Field.required_str. destruct (Doc.get k d) as [[]|]; try discriminate.
  intros H. injection H as ->. reflexivity.
Qed.

Lemma Player_validate_slug ve d x :
  Player.validate ve d = Some x -> Doc.get "slug" d = Some (VStr (Player.slug x)).
Proof.
  unfold Player.validate. intros H.
  apply bind_Some_inv in H as (s & Hs & H). apply required_str_Some in Hs.
  repeat (apply bind_Some_inv in H as (? & _ & H)).
  injection H as <-. exact Hs.
Qed.

Lemma matches_str field s doc s' :
  Doc.get field doc = Some (VStr s') -> Mongo.matches field s doc = true -> s' = s.
Proof. unfold Mongo.matches. intros ->. apply String.eqb_eq. Qed.

Section ResponseSlug.
Context (validate_email : string -> option string).

(** Whatever the store holds, a profile returned by [get_player] carries
    the slug that was asked for. *)
Theorem get_player_returns_requested_slug slug db x :
  fst (get_player validate_email slug db) = Return x -> Player.slug x = slug.
Proof.
  destruct db as [d|]; [|discriminate].
  rewrite get_player_by_find_one. cbn [fst].
  destruct (Mongo.find_one "player" "slug" slug d) as [doc|] eqn:E; [|discriminate].
  unfold construct. cbn [model_validate Player_model].
  destruct (Player.validate validate_email (Doc.pop "_id" doc)) as [y|] eqn:Ev; [|discriminate].
  intros H. injection H as <-.
  apply Player_validate_slug in Ev. rewrite Doc_get_pop_ne in Ev by discriminate.
  apply (matches_str "slug" slug doc _ Ev). apply (find_head_matches "player" _ _ d), E.
Qed.
End ResponseSlug.

Lemma testimonials_loop_matching slug docs : forall res out,
  Forall (fun doc => Mongo.matches "player_slug" slug doc = true) docs ->
  Forall (fun t => Testimonial.player_slug t = slug) res ->
  testimonials_loop docs res = Return out ->
  Forall (fun t => Testimonial.player_slug t = slug) out
  /\ length out = (length res + length docs)%nat.
Proof.
  induction docs as [|doc docs IH]; intros res out Hd Hr H.
  - cbn in H. injection H as <-. split; [exact Hr|cbn; lia].
  - cbn [testimonials_loop] in H. unfold construct in H.
    cbn [model_validate Testimonial_model] in H.
    destruct (Testimonial.validate (Doc.pop "_id" doc)) as [t|] eqn:Et; [|discriminate].
    inversion Hd as [|? ? Hm Hd']; subst.
    destruct (IH (res ++ [t])%list out Hd') as [Ho Hl]; [|exact H|].
    + apply Forall_app. split; [exact Hr|]. constructor; [|constructor].
      rewrite (matches_valid_testimonial slug doc t Et) in Hm. apply String.eqb_eq, Hm.
    + split; [exact Ho|]. rewrite Hl, length_app. cbn. lia.
Qed.

(** Whatever the store holds, when [list_testimonials] returns, the store
    is as before, every testimonial returned carries the slug asked for,
    and there is one for each document the query matched. *)
Theorem list_testimonials_returns_matching slug db ts db' :
  list_testimonials slug db = (Return ts, db') ->
  db' = db
  /\ Forall (fun t => Testimonial.player_slug t = slug) ts
  /\ exists d, db = Some d
       /\ length ts = length (Mongo.find "testimonial" "player_slug" slug d).
Proof.
  unfold list_testimonials, bind, db_find, lift.
  change (collection_name Testimonial.t) with "testimonial".
  destruct db as [d|]; [|discriminate].
  destruct (testimonials_loop _ []) as [out|e] eqn:E; [|discriminate].
  intros H. injection H as <- <-. split; [reflexivity|].
  destruct (testimonials_loop_matching slug
              (Mongo.find "testimonial" "player_slug" slug d) [] out) as [Ho Hl];
    [| |exact E|].
  - unfold Mongo.find. apply List.Forall_forall. intros doc Hin.
    apply List.filter_In in Hin. tauto.
  - constructor.
  - split; [exact Ho|]. exists d. split; [reflexivity|exact Hl].
Qed.

Lemma Field_pop_id k d :
  k <> "_id" ->
  Field.required_str k (Doc.pop "_id" d) = Field.required_str k d
  /\ (forall dflt, Field.optional_str k dflt (Doc.pop "_id" d) = Field.optional_str k dflt d)
  /\ (forall dflt, Field.optional_int k dflt (Doc.pop "_id" d) = Field.optional_int k dflt d)
  /\ (forall A (elem : value -> option A) dflt,
        Field.optional_list elem k dflt (Doc.pop "_id" d) = Field.optional_list elem k dflt d)
  /\ (forall ve dflt,
        Field.optional_email ve k dflt (Doc.pop "_id" d) = Field.optional_email ve k dflt d).
Proof.
  intros Hne.
  unfold Field.required_str, Field.optional_str, Field.optional_int, Field.optional_list,
    Field.optional_email.
  rewrite (Doc_get_pop_ne k "_id" d Hne). repeat split; reflexivity.
Qed.

Ltac pop_id_fields :=
  repeat match goal with
  | |- context [Field.required_str ?k (Doc.pop "_id" ?d)] =>
      rewrite (proj1 (Field_pop_id k d ltac:(discriminate)))
  | |- context [Field.optional_str ?k ?dflt (Doc.pop "_id" ?d)] =>
      rewrite (proj1 (proj2 (Field_pop_id k d ltac:(discriminate))) dflt)
  | |- context [Field.optional_int ?k ?dflt (Doc.pop "_id" ?d)] =>
      rewrite (proj1 (proj2 (proj2 (Field_pop_id k d ltac:(discriminate)))) dflt)
  | |- context [@Field.optional_list ?A ?elem ?k ?dflt (Doc.pop "_id" ?d)] =>
      rewrite (proj1 (proj2 (proj2 (proj2 (Field_pop_id k d ltac:(discriminate))))) A elem dflt)
  | |- context [Field.optional_email ?ve ?k ?dflt (Doc.pop "_id" ?d)] =>
      rewrite (proj2 (proj2 (proj2 (proj2 (Field_pop_id k d ltac:(discriminate))))) ve dflt)
  end.

(** The ["_id"] of a stored document plays no part in validation:
    removing it first, as the handlers do, gives the same outcome. *)
Theorem validate_ignores_id ve d :
  Testimonial.validate (Doc.pop "_id" d) = Testimonial.validate d
  /\ Player.validate ve (Doc.pop "_id" d) = Player.validate ve d
  /\ ContactSubmission.validate ve (Doc.pop "_id" d) = ContactSubmission.validate ve d.
Proof.
  unfold Testimonial.validate, Player.validate, ContactSubmission.validate.
  pop_id_fields. repeat split; reflexivity.
Qed.

Lemma truthy_or_str u d : Py.truthy_str u = true -> Py.or_str (Some u) d = u.
Proof. intros H. unfold Py.or_str. rewrite H. reflexivity. Qed.

(** All that [send_email_background] can do on the network: nothing, or
    a session with the configured host that goes as far as the network
    and the rendering of the message let it.  STARTTLS comes before the
    credentials, the credentials before the message; the message is
    rendered after the login and goes only if that succeeds, once, to the
    given recipient alone, with the given subject and content, from
    [SMTP_FROM] or else [SMTP_USER]; QUIT follows whenever the connection
    was made. *)
Theorem send_email_background_trace env net to_email subject content :
  let evs := snd (send_email_background env net to_email subject content) in
  evs = []
  \/ exists host port user pass,
       getenv env "SMTP_HOST" = Some host /\ getenv env "SMTP_USER" = Some user
       /\ getenv env "SMTP_PASS" = Some pass
       /\ Py.int (unicode_int net) (getenv_default env "SMTP_PORT" "587") = Some port
       /\ mime_text net content = None
       /\ let from := getenv_default env "SMTP_FROM" user in
          let msg := {| payload := content; subtype := "plain"; charset := "utf-8";
                        Subject := subject; From := from; To := to_email |} in
          (connect net host port <> None /\ evs = [Connect host port])
          \/ (connect net host port = None /\ starttls net <> None
              /\ evs = [Connect host port; StartTLS; Quit])
          \/ (connect net host port = None /\ starttls net = None
              /\ (login net user pass <> None
                  \/ (login net user pass = None /\ as_string net msg <> None))
              /\ evs = [Connect host port; StartTLS; Login user pass; Quit])
          \/ (connect net host port = None /\ starttls net = None
              /\ login net user pass = None /\ as_string net msg = None
              /\ evs = [Connect host port; StartTLS; Login user pass;
                        SendMail from [to_email] msg; Quit]).
Proof.
  intros evs. subst evs. unfold send_email_background.
  destruct (Py.int (unicode_int net) (getenv_default env "SMTP_PORT" "587"))
    as [port|] eqn:Hp; [|left; reflexivity].
  destruct (getenv env "SMTP_HOST") as [host|] eqn:Hh; [|left; reflexivity].
  destruct (getenv env "SMTP_USER") as [user|] eqn:Hu;
    [|left; cbn; rewrite andb_false_r; reflexivity].
  destruct (getenv env "SMTP_PASS") as [pass|] eqn:Hpw;
    [|left; cbn; rewrite andb_false_r; reflexivity].
  cbn [Py.truthy_opt].
  destruct (Py.truthy_str host && Py.truthy_str user && Py.truthy_str pass) eqn:Ht;
    [|left; reflexivity].
  cbn [negb].
  destruct (mime_text net content) as [e|] eqn:Hm; [left; reflexivity|].
  right. exists host, port, user, pass. repeat (split; [reflexivity|]).
  apply andb_true_iff in Ht as [Ht _]. apply andb_true_iff in Ht as [_ Ht].
  rewrite (truthy_or_str user to_email Ht). cbv zeta.
  unfold smtp_session, smtp_body, swallow.
  destruct (connect net host port) as [e|];
    [left; split; [discriminate|reflexivity]|].
  right. destruct (starttls net) as [e|];
    [left; split; [reflexivity|split; [discriminate|reflexivity]]|].
  right. destruct (login net user pass) as [e|].
  { left. split; [reflexivity|]. split; [reflexivity|].
    split; [left; discriminate|reflexivity]. }
  destruct (as_string net _) as [e|] eqn:Ha.
  { left. split; [reflexivity|]. split; [reflexivity|].
    split; [right; split; [reflexivity|discriminate]|reflexivity]. }
  right. destruct (sendmail net _ _ _); repeat split; reflexivity.
Qed.

Lemma len_take_chars n s : (len_chars (take_chars n s) <= n)%nat.
Proof.
  revert n. induction s as [|c s IH]; intros n; cbn; [lia|].
  destruct (is_continuation c) eqn:E.
  - cbn. rewrite E. apply IH.
  - destruct n as [|n]; cbn; [lia|]. rewrite E. specialize (IH n). lia.
Qed.

Lemma take_chars_prefix n s : exists rest, s = take_chars n s ++ rest.
Proof.
  revert n. induction s as [|c s IH]; intros n; cbn [take_chars]; [exists ""; reflexivity|].
  destruct (is_continuation c).
  - destruct (IH n) as [rest Hr]. exists rest.
    change (String c s = String c (take_chars n s ++ rest)). congruence.
  - destruct n as [|n]; [exists (String c s); reflexivity|].
    destruct (IH n) as [rest Hr]. exists rest.
    change (String c s = String c (take_chars n s ++ rest)). congruence.
Qed.

Section StatusFacts.
Context (list_collection_names : database -> list string + string).

(** The report of [test_database] always has its six entries in order
    and says the backend is running; the initial "not available" text
    never comes out; the status is "Connected" exactly when the handle is
    open and the collections could be listed; and without a handle the two
    configuration flags stay [None], whatever the environment. *)
Theorem test_database_report env db :
  let response := test_database list_collection_names env db in
  map fst response
  = ["backend"; "database"; "database_url"; "database_name"; "connection_status"; "collections"]
  /\ Doc.get "backend" response = Some (VStr "✅ Running")
  /\ Doc.get "database" response <> Some (VStr "❌ Not Available")
  /\ (Doc.get "connection_status" response = Some (VStr "Connected")
      <-> exists d names, db = Some d /\ list_collection_names d = inl names)
  /\ (db = None ->
      Doc.get "database_url" response = Some VNull
      /\ Doc.get "database_name" response = Some VNull).
Proof.
  intros response. subst response. unfold test_database.
  destruct db as [d|].
  - destruct (list_collection_names d) as [names|e] eqn:E;
      cbn [Doc.set Doc.get String.eqb Ascii.eqb Bool.eqb map fst].
    + split; [reflexivity|]. split; [reflexivity|]. split; [discriminate|].
      split; [|discriminate]. split; [eauto|reflexivity].
    + split; [reflexivity|]. split; [reflexivity|]. split.
      { intros H. injection H as H. cbv [String.append] in H. discriminate. }
      split; [|discriminate]. split; [discriminate|].
      intros (d' & names & Hd & Hn). injection Hd as <-. congruence.
  - cbn [Doc.set Doc.get String.eqb Ascii.eqb Bool.eqb map fst].
    split; [reflexivity|]. split; [reflexivity|]. split; [discriminate|].
    split; [|split; reflexivity]. split; [discriminate|].
    intros (d' & names & Hd & _). discriminate.
Qed.

(** The report lists at most ten collections, the first ten the store
    names, and lists any only when connected; when listing fails, the
    report carries at most the first eighty characters of the error. *)
Theorem test_database_listing env db :
  let response := test_database list_collection_names env db in
  exists names,
    Doc.get "collections" response = Some (VList (map VStr names))
    /\ (length names <= 10)%nat
    /\ (forall d all, db = Some d -> list_collection_names d = inl all -> names = take 10 all)
    /\ (names <> [] -> Doc.get "connection_status" response = Some (VStr "Connected"))
    /\ (forall d e, db = Some d -> list_collection_names d = inr e ->
          exists text, Doc.get "database" response
                       = Some (VStr ("⚠️  Connected but Error: " ++ text))
                       /\ (len_chars text <= 80)%nat /\ exists rest, e = text ++ rest).
Proof.
  intros response. subst response. unfold test_database.
  destruct db as [d|].
  - destruct (list_collection_names d) as [all|e] eqn:E.
    + exists (take 10 all). cbn [Doc.set Doc.get String.eqb Ascii.eqb Bool.eqb].
      split; [reflexivity|]. split; [rewrite length_take; lia|].
      split; [intros d' all' Hd Ha; injection Hd as <-; congruence|].
      split; [reflexivity|]. intros d' e' Hd He. injection Hd as <-. congruence.
    + exists []. cbn [Doc.set Doc.get String.eqb Ascii.eqb Bool.eqb map length].
      split; [reflexivity|]. split; [lia|].
      split; [intros d' all' Hd Ha; injection Hd as <-; congruence|].
      split; [congruence|]. intros d' e' Hd He. injection Hd as <-.
      assert (e' = e) as -> by congruence.
      exists (take_chars 80 e). split; [reflexivity|]. split; [apply len_take_chars|].
      apply take_chars_prefix.
  - exists []. cbn [Doc.set Doc.get String.eqb Ascii.eqb Bool.eqb map length].
    split; [reflexivity|]. split; [lia|]. split; [discriminate|]. split; [congruence|discriminate].
Qed.
End StatusFacts.

(** On a driver whose open handle is true: for a slug that [slug_regex]
    accepts and that no stored player has, the first [create_player]
    succeeds, returns the profile and inserts its document; after that,
    and after any further requests to the API, every call with the same
    slug, whatever its other fields, fails with status 409 and leaves the
    store as it is. *)
Theorem create_player_once
    (validate_email : string -> option string) (Database_bool : pyresult bool)
    (repr_compound : value -> string) (p : Player.t) (d : database) :
  Database_bool = Return true ->
  slug_regex_match (Player.slug p) = true ->
  Player.validated validate_email p ->
  Mongo.find "player" "slug" (Player.slug p) d = [] ->
  let d1 := snd (Mongo.insert_one "player" (Player.dump p) d) in
  create_player validate_email Database_bool repr_compound p (Some d)
  = (Return p, Some d1)
  /\ forall (reqs : list request) (p' : Player.t),
       Player.slug p' = Player.slug p ->
       let db2 := after_all validate_email Database_bool repr_compound reqs (Some d1) in
       create_player validate_email Database_bool repr_compound p' db2
       = (Raise (HTTPException 409 "Slug already exists"), db2).
Proof.
  intros Hb Hslug Hval Hfresh d1. split.
  - apply create_player_first; assumption.
  - intros reqs p' Hp' db2.
    assert (Hfound : Mongo.find "player" "slug" (Player.slug p) d1 <> []).
    { unfold d1. rewrite find_insert_same, Hfresh, Player_dump_slug_matches. discriminate. }
    destruct (after_all_keeps_found validate_email Database_bool repr_compound reqs
                "player" "slug" (Player.slug p) d1 Hfound) as (d2 & Hd2 & Hfound2).
    unfold db2. rewrite Hd2.
    apply create_player_conflict; [assumption|congruence|]. rewrite Hp'. exact Hfound2.
Qed.

Lemma create_player_once_witness :
  create_player accept_any handle_true no_repr john_doe (Some Mongo.empty)
  = (Return john_doe, Some store_with_john)
  /\ forall (reqs : list request) (p' : Player.t),
       Player.slug p' = Player.slug john_doe ->
       let db2 := after_all accept_any handle_true no_repr reqs (Some store_with_john) in
       create_player accept_any handle_true no_repr p' db2
       = (Raise (HTTPException 409 "Slug already exists"), db2).
Proof.
  apply (create_player_once accept_any handle_true no_repr john_doe Mongo.empty);
    reflexivity.
Defined.

(* ===================================================================== *)
(** * The properties above at the sample data *)
(* ===================================================================== *)

Lemma player_immutable_witness :
  exists d',
    after_all accept_any handle_true no_repr sample_requests (Some store_with_john) = Some d'
    /\ get_player accept_any "john-doe" (Some d')
       = (fst (get_player accept_any "john-doe" (Some store_with_john)), Some d').
Proof.
  apply (player_immutable accept_any handle_true no_repr sample_requests "john-doe"
           store_with_john).
  vm_compute. discriminate.
Defined.

Lemma reads_independent_of_other_writes_witness :
  fst (get_player accept_any "john-doe"
         (Some (snd (Mongo.insert_one "testimonial" (Testimonial.dump praise)
                       store_with_john))))
  = fst (get_player accept_any "john-doe" (Some store_with_john)).
Proof.
  apply (proj1 (reads_independent_of_other_writes accept_any handle_true no_repr
                  "john-doe" store_with_john) "john-doe" praise).
  reflexivity.
Defined.

Lemma add_testimonial_then_list_witness :
  let d1 := snd (Mongo.insert_one "testimonial" (Testimonial.dump praise) Mongo.empty) in
  add_testimonial "john-doe" praise (Some Mongo.empty) = (Return praise, Some d1)
  /\ forall slug', exists before,
       list_testimonials slug' (Some Mongo.empty) = (Return before, Some Mongo.empty)
       /\ list_testimonials slug' (Some d1)
          = (Return (before ++ (if String.eqb slug' "john-doe" then [praise] else []))%list,
             Some d1).
Proof.
  apply (add_testimonial_then_list "john-doe" praise Mongo.empty);
    [constructor|reflexivity].
Defined.

Lemma testimonials_only_grow_witness :
  exists d' before more,
    after_all accept_any handle_true no_repr sample_requests (Some Mongo.empty) = Some d'
    /\ list_testimonials "john-doe" (Some Mongo.empty) = (Return before, Some Mongo.empty)
    /\ list_testimonials "john-doe" (Some d') = (Return (before ++ more)%list, Some d').
Proof.
  apply (testimonials_only_grow accept_any handle_true no_repr sample_requests "john-doe"
           Mongo.empty).
  constructor.
Defined.

Lemma models_roundtrip_witness :
  Player.validate accept_any (Player.dump jane_roe) = Some jane_roe
  /\ ContactSubmission.validate accept_any (ContactSubmission.dump scout_a) = Some scout_a.
Proof.
  split.
  - apply (proj1 (proj2 (proj2 (proj2 (models_roundtrip accept_any))))). exact I.
  - apply (proj2 (proj2 (proj2 (proj2 (models_roundtrip accept_any))))). exact I.
Defined.

Lemma submit_contact_persists_witness :
  exists d',
    snd (submit_contact accept_any no_repr "john-doe" scout_a [] "2024-05-01T12:00:00"
           (Some store_with_john)) = Some d'
    /\ Mongo.collection "contactsubmission" d'
       = (Mongo.collection "contactsubmission" store_with_john
          ++ [("_id", VObjectId (next_oid store_with_john))
              :: ContactSubmission.dump scout_a])%list
    /\ ContactSubmission.validate accept_any
         (Doc.pop "_id" (("_id", VObjectId (next_oid store_with_john))
                         :: ContactSubmission.dump scout_a))
       = Some scout_a
    /\ forall name, name <> "contactsubmission" ->
         Mongo.collection name d' = Mongo.collection name store_with_john.
Proof.
  apply (submit_contact_persists accept_any no_repr "john-doe" scout_a []
           "2024-05-01T12:00:00" store_with_john); [reflexivity|exact I].
Defined.

Lemma no_notification_without_contact_email_witness :
  submit_contact accept_any no_repr "john-doe" scout_a [] "2024-05-01T12:00:00"
    (Some Mongo.empty)
  = (Return ([("status", VStr "ok")], []),
     Some (snd (Mongo.insert_one "contactsubmission" (ContactSubmission.dump scout_a)
                  Mongo.empty)))
  /\ forall env net,
       fst (serve_submit_contact accept_any no_repr env net "john-doe" scout_a
              "2024-05-01T12:00:00" (Some Mongo.empty))
       = [Responded 200 (VDoc [("status", VStr "ok")])].
Proof.
  apply (no_notification_without_contact_email accept_any no_repr "john-doe" scout_a []
           "2024-05-01T12:00:00" Mongo.empty); [reflexivity|].
  intros p H. vm_compute in H. discriminate.
Defined.

Lemma create_two_players_witness :
  let d1 := snd (Mongo.insert_one "player" (Player.dump john_doe) Mongo.empty) in
  let d2 := snd (Mongo.insert_one "player" (Player.dump jane_roe) d1) in
  create_player accept_any handle_true no_repr john_doe (Some Mongo.empty)
  = (Return john_doe, Some d1)
  /\ create_player accept_any handle_true no_repr jane_roe (Some d1) = (Return jane_roe, Some d2)
  /\ get_player accept_any (Player.slug john_doe) (Some d2) = (Return john_doe, Some d2)
  /\ get_player accept_any (Player.slug jane_roe) (Some d2) = (Return jane_roe, Some d2).
Proof.
  apply (create_two_players accept_any handle_true no_repr john_doe jane_roe Mongo.empty);
    first [reflexivity | exact I | discriminate].
Defined.

Lemma create_player_success_inv_witness :
  slug_regex_match (Player.slug jane_roe) = true
  /\ Mongo.find "player" "slug" (Player.slug jane_roe) store_with_john = []
  /\ Some (snd (Mongo.insert_one "player" (Player.dump jane_roe) store_with_john))
     = Some (snd (Mongo.insert_one "player" (Player.dump jane_roe) store_with_john))
  /\ Player.validate accept_any (Player.dump jane_roe) = Some jane_roe.
Proof.
  apply (create_player_success_inv accept_any handle_true no_repr jane_roe store_with_john
           jane_roe); reflexivity.
Defined.

Lemma get_player_returns_requested_slug_witness : Player.slug john_doe = "john-doe".
Proof.
  apply (get_player_returns_requested_slug accept_any "john-doe" (Some store_with_john)).
  reflexivity.
Defined.

Lemma list_testimonials_returns_matching_witness :
  Some store_with_praise = Some store_with_praise
  /\ Forall (fun t => Testimonial.player_slug t = "john-doe") [praise]
  /\ exists d, Some store_with_praise = Some d
       /\ length [praise] = length (Mongo.find "testimonial" "player_slug" "john-doe" d).
Proof.
  apply (list_testimonials_returns_matching "john-doe" (Some store_with_praise) [praise]).
  reflexivity.
Defined.
